(** * CRE property search: filter, sort, select, paginate, compare

    A shallow embedding of the listing pipeline of the property browser:
    the filter/sort effect of [SearchAndFilters.tsx], the selection and
    infinite-scroll state of [PropertyGrid.tsx] and the best-value flags of
    [CompareModal.tsx].

    Conventions of the embedding
    - a finite JavaScript [number] is a rational ([Q]); [===] on numbers is
      [Qeq_bool], [<=] is [Qle_bool].  Rounding of IEEE doubles is not
      modelled.  The results of [Math.min] / [Math.max], which may be
      [Infinity] / [-Infinity], live in [jsnum];
    - a JavaScript string is a [string]; [toLowerCase] maps the ASCII letters
      and leaves every other byte alone;
    - [Set<string>] is a [gset string];
    - React state is an explicit record, every handler and effect body a
      function from state to state; a pending [setTimeout] callback is part
      of the state. *)

From Stdlib Require Import QArith Qminmax Lqa ZArith String Ascii List Bool Lia Sorted.
From Stdlib Require OrderedTypeEx.
From stdpp Require Import gmap strings list.

Import ListNotations.
Local Open Scope string_scope.
#[local] Set Warnings "-clear-no-such-hyp".

(** ** Numbers *)

Definition number := Q.

(** A value a numeric expression can take once [Math.min] and [Math.max]
    are involved: they answer [Infinity] and [-Infinity] on no arguments. *)
Inductive jsnum : Type :=
  | NegInfinity
  | Num (q : number)
  | PosInfinity.

(** [a <= b] *)
Definition jle_bool (a b : jsnum) : bool :=
  match a, b with
  | NegInfinity, _ => true
  | _, PosInfinity => true
  | Num x, Num y => Qle_bool x y
  | _, _ => false
  end.

(** [a === b] *)
Definition jeq_bool (a b : jsnum) : bool :=
  match a, b with
  | NegInfinity, NegInfinity => true
  | Num x, Num y => Qeq_bool x y
  | PosInfinity, PosInfinity => true
  | _, _ => false
  end.

Definition jmin (a b : jsnum) : jsnum := if jle_bool a b then a else b.
Definition jmax (a b : jsnum) : jsnum := if jle_bool a b then b else a.

(** [Math.min(...xs)] and [Math.max(...xs)] *)
Definition Math_min (xs : list jsnum) : jsnum := fold_right jmin PosInfinity xs.
Definition Math_max (xs : list jsnum) : jsnum := fold_right jmax NegInfinity xs.

(** ** Strings *)

Definition lower_ascii (c : ascii) : ascii :=
  let n := nat_of_ascii c in
  if ((65 <=? n) && (n <=? 90))%nat then ascii_of_nat (n + 32) else c.

(** [s.toLowerCase()] *)
Fixpoint toLowerCase (s : string) : string :=
  match s with
  | EmptyString => EmptyString
  | String c s' => String (lower_ascii c) (toLowerCase s')
  end.

(** [s.includes(sub)] *)
Fixpoint includes (s sub : string) : bool :=
  String.prefix sub s ||
  match s with
  | EmptyString => false
  | String _ s' => includes s' sub
  end.

(** [xs.includes(x)] on an array of strings *)
Definition Array_includes (xs : list string) (x : string) : bool :=
  existsb (String.eqb x) xs.

(** [a.localeCompare(b)] depends on the collation of the host; the
    development is parametric in it. *)
Class Collator := { localeCompare : string -> string -> number }.

(** ** Listings *)

Module Address.
Record t : Type := mk {
  street : string;
  city : string;
  state : string;
  zip : string
}.
End Address.

(** Modelled from the spec: the [Property] interface of [types/Property],
    which the components import ("identifier, title, description, type,
    address (street, city, state, zip), price-per-unit-area, total-area,
    year-built (optional), date-listed (timestamp), amenities, images").
    [date_listed] holds what [new Date(p.date_listed).getTime()] answers. *)
Module Property.
Record t : Type := mk {
  id : string;
  title : string;
  description : string;
  type : string;
  address : Address.t;
  price_per_sqft : number;
  total_sqft : number;
  year_built : option number;
  date_listed : Z;
  amenities : list string;
  images : list string
}.
End Property.

(** [p.price_per_sqft * p.total_sqft] *)
Definition totalPrice (p : Property.t) : number :=
  (Property.price_per_sqft p * Property.total_sqft p)%Q.

(** The template literal [`${city}, ${state}`]. *)
Definition locationOf (p : Property.t) : string :=
  Address.city (Property.address p) ++ ", " ++ Address.state (Property.address p).

(** ** SearchAndFilters.tsx *)

Record FilterState : Type := mkFilterState {
  searchTerm : string;
  selectedTypes : list string;
  priceRange : jsnum * jsnum;
  sizeRange : jsnum * jsnum;
  selectedLocations : list string;
  selectedAmenities : list string;
  sortBy : string
}.

Definition initialFilters : FilterState :=
  {| searchTerm := "";
     selectedTypes := [];
     priceRange := (Num 0%Q, Num 0%Q);
     sizeRange := (Num 0%Q, Num 0%Q);
     selectedLocations := [];
     selectedAmenities := [];
     sortBy := "date_listed" |}.

Definition minPrice (properties : list Property.t) : jsnum :=
  Math_min (map (fun p => Num (totalPrice p)) properties).
Definition maxPrice (properties : list Property.t) : jsnum :=
  Math_max (map (fun p => Num (totalPrice p)) properties).

(** [const minSize = 600; // Fixed minimum of 600 sqft] *)
Definition minSize : jsnum := Num 600%Q.
Definition maxSize (properties : list Property.t) : jsnum :=
  Math_max (map (fun p => Num (Property.total_sqft p)) properties).

(** The effect "Initialize ranges when properties change". *)
Definition initRanges (properties : list Property.t) (prev : FilterState) : FilterState :=
  match properties with
  | [] => prev
  | _ :: _ =>
      {| searchTerm := searchTerm prev;
         selectedTypes := selectedTypes prev;
         priceRange := (minPrice properties, maxPrice properties);
         sizeRange := (minSize, maxSize properties);
         selectedLocations := selectedLocations prev;
         selectedAmenities := selectedAmenities prev;
         sortBy := sortBy prev |}
  end.

(** The handlers that edit the criteria. *)
Definition toggleMember (x : string) (xs : list string) : list string :=
  if Array_includes xs x
  then List.filter (fun y => negb (String.eqb y x)) xs
  else (xs ++ [x])%list.

Definition handleSearchChange (value : string) (prev : FilterState) : FilterState :=
  {| searchTerm := value;
     selectedTypes := selectedTypes prev;
     priceRange := priceRange prev;
     sizeRange := sizeRange prev;
     selectedLocations := selectedLocations prev;
     selectedAmenities := selectedAmenities prev;
     sortBy := sortBy prev |}.

Definition handleTypeToggle (type : string) (prev : FilterState) : FilterState :=
  {| searchTerm := searchTerm prev;
     selectedTypes := toggleMember type (selectedTypes prev);
     priceRange := priceRange prev;
     sizeRange := sizeRange prev;
     selectedLocations := selectedLocations prev;
     selectedAmenities := selectedAmenities prev;
     sortBy := sortBy prev |}.

Definition handleLocationToggle (location : string) (prev : FilterState) : FilterState :=
  {| searchTerm := searchTerm prev;
     selectedTypes := selectedTypes prev;
     priceRange := priceRange prev;
     sizeRange := sizeRange prev;
     selectedLocations := toggleMember location (selectedLocations prev);
     selectedAmenities := selectedAmenities prev;
     sortBy := sortBy prev |}.

Definition handleAmenityToggle (amenity : string) (prev : FilterState) : FilterState :=
  {| searchTerm := searchTerm prev;
     selectedTypes := selectedTypes prev;
     priceRange := priceRange prev;
     sizeRange := sizeRange prev;
     selectedLocations := selectedLocations prev;
     selectedAmenities := toggleMember amenity (selectedAmenities prev);
     sortBy := sortBy prev |}.

Definition handleSortChange (sortBy' : string) (prev : FilterState) : FilterState :=
  {| searchTerm := searchTerm prev;
     selectedTypes := selectedTypes prev;
     priceRange := priceRange prev;
     sizeRange := sizeRange prev;
     selectedLocations := selectedLocations prev;
     selectedAmenities := selectedAmenities prev;
     sortBy := sortBy' |}.

(** The edits that narrow or reorder the result and are not a move of a
    range slider. *)
Inductive CriteriaEdit : Type :=
  | SearchChange (value : string)
  | TypeToggle (type : string)
  | LocationToggle (location : string)
  | AmenityToggle (amenity : string)
  | SortChange (sortBy' : string).

Definition applyEdit (e : CriteriaEdit) (prev : FilterState) : FilterState :=
  match e with
  | SearchChange value => handleSearchChange value prev
  | TypeToggle type => handleTypeToggle type prev
  | LocationToggle location => handleLocationToggle location prev
  | AmenityToggle amenity => handleAmenityToggle amenity prev
  | SortChange sortBy' => handleSortChange sortBy' prev
  end.

(** The six narrowing stages of the filter effect, one predicate each. *)
Definition matchesSearch (searchLower : string) (property : Property.t) : bool :=
  includes (toLowerCase (Property.title property)) searchLower
  || includes (toLowerCase (Property.description property)) searchLower
  || includes (toLowerCase (Address.city (Property.address property))) searchLower
  || includes (toLowerCase (Address.state (Property.address property))) searchLower
  || existsb (fun amenity => includes (toLowerCase amenity) searchLower)
       (Property.amenities property).

Definition inRange (range : jsnum * jsnum) (v : number) : bool :=
  jle_bool (fst range) (Num v) && jle_bool (Num v) (snd range).

Definition searchStage (debouncedSearchTerm : string) (filtered : list Property.t)
  : list Property.t :=
  match debouncedSearchTerm with
  | EmptyString => filtered
  | _ => List.filter (matchesSearch (toLowerCase debouncedSearchTerm)) filtered
  end.

Definition typeStage (filters : FilterState) (filtered : list Property.t)
  : list Property.t :=
  match selectedTypes filters with
  | [] => filtered
  | _ => List.filter (fun property =>
           Array_includes (selectedTypes filters) (Property.type property)) filtered
  end.

Definition priceStage (filters : FilterState) (filtered : list Property.t)
  : list Property.t :=
  List.filter (fun property => inRange (priceRange filters) (totalPrice property)) filtered.

Definition sizeStage (filters : FilterState) (filtered : list Property.t)
  : list Property.t :=
  List.filter (fun property =>
    inRange (sizeRange filters) (Property.total_sqft property)) filtered.

Definition locationStage (filters : FilterState) (filtered : list Property.t)
  : list Property.t :=
  match selectedLocations filters with
  | [] => filtered
  | _ => List.filter (fun property =>
           Array_includes (selectedLocations filters) (locationOf property)) filtered
  end.

Definition amenitiesStage (filters : FilterState) (filtered : list Property.t)
  : list Property.t :=
  match selectedAmenities filters with
  | [] => filtered
  | _ => List.filter (fun property =>
           forallb (fun amenity => Array_includes (Property.amenities property) amenity)
             (selectedAmenities filters)) filtered
  end.

(** The comparator handed to [filtered.sort]. *)
Definition compareFn `{Collator} (sortBy : string) (a b : Property.t) : number :=
  if String.eqb sortBy "date_listed" then
    inject_Z (Property.date_listed b - Property.date_listed a)
  else if String.eqb sortBy "date_listed_old" then
    inject_Z (Property.date_listed a - Property.date_listed b)
  else if String.eqb sortBy "price_low" then (totalPrice a - totalPrice b)%Q
  else if String.eqb sortBy "price_high" then (totalPrice b - totalPrice a)%Q
  else if String.eqb sortBy "size_large" then
    (Property.total_sqft b - Property.total_sqft a)%Q
  else if String.eqb sortBy "size_small" then
    (Property.total_sqft a - Property.total_sqft b)%Q
  else if String.eqb sortBy "title" then
    localeCompare (Property.title a) (Property.title b)
  else 0%Q.

(** [Array.prototype.sort(cmp)].  ECMAScript (2019 on) requires the sort to
    be stable and leaves the algorithm to the engine; it is modelled by a
    straight insertion sort, which puts [x] in front of the first element
    it does not compare greater than. *)
Fixpoint sort_insert {A : Type} (cmp : A -> A -> number) (x : A) (l : list A) : list A :=
  match l with
  | [] => [x]
  | y :: l' => if Qle_bool (cmp x y) 0%Q then x :: y :: l' else y :: sort_insert cmp x l'
  end.

Definition Array_sort {A : Type} (cmp : A -> A -> number) (l : list A) : list A :=
  fold_right (sort_insert cmp) [] l.

(** The narrowing part of the effect "Filter properties based on current
    filters", in the order of the source. *)
Definition narrow (properties : list Property.t) (debouncedSearchTerm : string)
    (filters : FilterState) : list Property.t :=
  amenitiesStage filters
    (locationStage filters
       (sizeStage filters
          (priceStage filters
             (typeStage filters
                (searchStage debouncedSearchTerm properties))))).

(** The whole effect: what is handed to [onFilteredProperties]. *)
Definition filterProperties `{Collator} (properties : list Property.t)
    (debouncedSearchTerm : string) (filters : FilterState) : list Property.t :=
  Array_sort (compareFn (sortBy filters)) (narrow properties debouncedSearchTerm filters).

(** A collation that compares code units, for running the definitions. *)
Definition codeUnitCompare (a b : string) : number :=
  match String.compare a b with
  | Lt => (-1)%Q
  | Eq => 0%Q
  | Gt => 1%Q
  end.

Definition CodeUnitCollator : Collator := {| localeCompare := codeUnitCompare |}.

(** ** CompareModal.tsx *)

(** [p.year_built ? new Date().getFullYear() - p.year_built : null]; the
    year the clock shows is an input. *)
Definition age (currentYear : number) (p : Property.t) : option number :=
  match Property.year_built p with
  | Some y => if Qeq_bool y 0%Q then None else Some (currentYear - y)%Q
  | None => None
  end.

Definition bestPrice (properties : list Property.t) : jsnum :=
  Math_min (map (fun p => Num (totalPrice p)) properties).

Definition bestSize (properties : list Property.t) : jsnum :=
  Math_max (map (fun p => Num (Property.total_sqft p)) properties).

(** [age(p) ?? Number.POSITIVE_INFINITY] *)
Definition ageOrInfinity (currentYear : number) (p : Property.t) : jsnum :=
  match age currentYear p with
  | Some a => Num a
  | None => PosInfinity
  end.

Definition bestAge (currentYear : number) (properties : list Property.t) : jsnum :=
  Math_min (map (ageOrInfinity currentYear) properties).

Definition isPriceBest (properties : list Property.t) (property : Property.t) : bool :=
  jeq_bool (Num (totalPrice property)) (bestPrice properties).

Definition isSizeBest (properties : list Property.t) (property : Property.t) : bool :=
  jeq_bool (Num (Property.total_sqft property)) (bestSize properties).

Definition isAgeBest (currentYear : number) (properties : list Property.t)
    (property : Property.t) : bool :=
  match age currentYear property with
  | Some a => jeq_bool (Num a) (bestAge currentYear properties)
  | None => false
  end.

(** ** PropertyGrid.tsx *)

(** The updater inside [toggleSelect]. *)
Definition toggleSelect (id : string) (checked : bool) (prev : gset string) : gset string :=
  if checked then
    if (4 <=? size prev)%nat then prev else {[ id ]} ∪ prev
  else prev ∖ {[ id ]}.

(** The state of the grid.  [pendingTimer] is the [setTimeout] callback of
    [loadMoreProperties] that has not fired yet; it holds the
    [filteredProperties.length] its closure captured. *)
Record GridState : Type := mkGridState {
  filteredProperties : list Property.t;
  selectedIds : gset string;
  visibleCount : nat;
  isLoadingMore : bool;
  hasMore : bool;
  pendingTimer : option nat
}.

(** The [useState] initial values. *)
Definition initialGrid (properties : list Property.t) : GridState :=
  {| filteredProperties := properties;
     selectedIds := ∅;
     visibleCount := 8;
     isLoadingMore := false;
     hasMore := true;
     pendingTimer := None |}.

Definition onToggleSelect (id : string) (checked : bool) (s : GridState) : GridState :=
  {| filteredProperties := filteredProperties s;
     selectedIds := toggleSelect id checked (selectedIds s);
     visibleCount := visibleCount s;
     isLoadingMore := isLoadingMore s;
     hasMore := hasMore s;
     pendingTimer := pendingTimer s |}.

(** The effect on [properties]: "Update filtered properties when properties
    change". *)
Definition propertiesEffect (properties : list Property.t) (s : GridState) : GridState :=
  {| filteredProperties := properties;
     selectedIds := selectedIds s;
     visibleCount := 8;
     isLoadingMore := isLoadingMore s;
     hasMore := (8 <? length properties)%nat;
     pendingTimer := pendingTimer s |}.

(** The effect on [filteredProperties]: "Reset visible count when filtered
    properties change". *)
Definition filteredEffect (s : GridState) : GridState :=
  {| filteredProperties := filteredProperties s;
     selectedIds := selectedIds s;
     visibleCount := 8;
     isLoadingMore := isLoadingMore s;
     hasMore := (8 <? length (filteredProperties s))%nat;
     pendingTimer := pendingTimer s |}.

(** [onFilteredProperties(filtered)], that is [setFilteredProperties], and
    the effect it sets off. *)
Definition setFilteredProperties (filtered : list Property.t) (s : GridState) : GridState :=
  filteredEffect
    {| filteredProperties := filtered;
       selectedIds := selectedIds s;
       visibleCount := visibleCount s;
       isLoadingMore := isLoadingMore s;
       hasMore := hasMore s;
       pendingTimer := pendingTimer s |}.

(** [loadMoreProperties], up to the call of [setTimeout]. *)
Definition loadMoreProperties (s : GridState) : GridState :=
  if isLoadingMore s || negb (hasMore s) then s
  else
    {| filteredProperties := filteredProperties s;
       selectedIds := selectedIds s;
       visibleCount := visibleCount s;
       isLoadingMore := true;
       hasMore := hasMore s;
       pendingTimer := Some (length (filteredProperties s)) |}.

(** The callback of [setTimeout], 500 ms later. *)
Definition timerFired (s : GridState) : GridState :=
  match pendingTimer s with
  | None => s
  | Some capturedLength =>
      let newCount := (visibleCount s + 8)%nat in
      {| filteredProperties := filteredProperties s;
         selectedIds := selectedIds s;
         visibleCount := newCount;
         isLoadingMore := false;
         hasMore := (newCount <? capturedLength)%nat;
         pendingTimer := None |}
  end.

(** [filteredProperties.slice(0, visibleCount)] *)
Definition visibleProperties (s : GridState) : list Property.t :=
  firstn (visibleCount s) (filteredProperties s).

(** The [properties] prop of [CompareModal]:
    [filteredProperties.filter(p => selectedIds.has(p.id)).slice(0, 4)]. *)
Definition compareProperties (s : GridState) : list Property.t :=
  firstn 4
    (List.filter (fun p => bool_decide (Property.id p ∈ selectedIds s))
       (filteredProperties s)).

(** The floating compare button is rendered when [selectedIds.size >= 2]. *)
Definition compareOffered (s : GridState) : bool := (2 <=? size (selectedIds s))%nat.

(** The events of the grid and the transition each one causes. *)
Inductive GridEvent : Type :=
  | ToggleSelect (id : string) (checked : bool)
  | PropertiesChanged (properties : list Property.t)
  | FilteredChanged (filtered : list Property.t)
  | LoadMore
  | TimerFired.

Definition step (s : GridState) (e : GridEvent) : GridState :=
  match e with
  | ToggleSelect id checked => onToggleSelect id checked s
  | PropertiesChanged properties => propertiesEffect properties s
  | FilteredChanged filtered => setFilteredProperties filtered s
  | LoadMore => loadMoreProperties s
  | TimerFired => timerFired s
  end.

Definition run (s : GridState) (es : list GridEvent) : GridState := fold_left step es s.

(** A sequence of toggles applied to a selection set. *)
Definition toggles (ops : list (string * bool)) (s : gset string) : gset string :=
  fold_left (fun acc op => toggleSelect (fst op) (snd op) acc) ops s.

(** *** The first render, on any value *)

(** What may arrive as the [properties] prop when the input is not what the
    type promises. *)
Inductive JsValue : Type :=
  | JsUndefined
  | JsNull
  | JsNumber (n : number)
  | JsString (s : string)
  | JsPlainObject
  | JsArray (l : list Property.t).

Inductive Completion (A : Type) : Type :=
  | Normal (a : A)
  | TypeError.
Arguments Normal {A} a.
Arguments TypeError {A}.

Definition bind {A B : Type} (c : Completion A) (k : A -> Completion B) : Completion B :=
  match c with
  | Normal a => k a
  | TypeError => TypeError
  end.

Notation "'let*' x ':=' c 'in' k" := (bind c (fun x => k))
  (at level 10, x name, c at level 100, k at level 200).

(** [!v] is [negb (truthy v)]. *)
Definition truthy (v : JsValue) : bool :=
  match v with
  | JsUndefined | JsNull => false
  | JsNumber n => negb (Qeq_bool n 0%Q)
  | JsString s => negb (String.eqb s "")
  | JsPlainObject | JsArray _ => true
  end.

Definition Array_isArray (v : JsValue) : bool :=
  match v with
  | JsArray _ => true
  | _ => false
  end.

(** [v.length]: reading a property of [undefined] or [null] throws. *)
Definition get_length (v : JsValue) : Completion (option nat) :=
  match v with
  | JsUndefined | JsNull => TypeError
  | JsString s => Normal (Some (String.length s))
  | JsArray l => Normal (Some (length l))
  | JsNumber _ | JsPlainObject => Normal None
  end.

(** [v.slice(0, n)]: arrays and strings have the method; on a number or a
    plain object [v.slice] is [undefined] and the call throws. *)
Definition slice (v : JsValue) (n : nat) : Completion JsValue :=
  match v with
  | JsArray l => Normal (JsArray (firstn n l))
  | JsString s => Normal (JsString (String.substring 0 (Nat.min n (String.length s)) s))
  | _ => TypeError
  end.

Inductive View : Type :=
  | NoPropertiesAvailable
  | Listing (visible : JsValue).

(** The body of [PropertyGrid] on its first render, where the state
    [filteredProperties] is [properties] and [visibleCount] is 8: the
    dependency array of [useCallback] reads [filteredProperties.length],
    [visibleProperties] is sliced, and only then comes the "Safety check
    for properties array". *)
Definition PropertyGrid (properties : JsValue) : Completion View :=
  let filteredProperties := properties in
  let* deps := get_length filteredProperties in
  let* visibleProperties := slice filteredProperties 8 in
  if negb (truthy properties) || negb (Array_isArray properties)
  then Normal NoPropertiesAvailable
  else Normal (Listing visibleProperties).


(** ** The vocabulary of the specification *)

(** [sub] occurs in [s]. *)
Definition isSubstring (sub s : string) : Prop :=
  exists pre post : string, s = pre ++ sub ++ post.

Definition jle (a b : jsnum) : Prop :=
  match a, b with
  | NegInfinity, _ => True
  | _, PosInfinity => True
  | Num x, Num y => (x <= y)%Q
  | _, _ => False
  end.

(** [v] lies in the inclusive range [lo, hi]. *)
Definition within (range : jsnum * jsnum) (v : number) : Prop :=
  jle (fst range) (Num v) /\ jle (Num v) (snd range).

(** The text-search predicate; [norm] is what is done to a field of the
    listing before the lower-cased term is looked for in it. *)
Definition passesSearch (norm : string -> string) (term : string) (p : Property.t) : Prop :=
  term <> "" ->
  let t := toLowerCase term in
  isSubstring t (norm (Property.title p))
  \/ isSubstring t (norm (Property.description p))
  \/ isSubstring t (norm (Address.city (Property.address p)))
  \/ isSubstring t (norm (Address.state (Property.address p)))
  \/ exists amenity, In amenity (Property.amenities p) /\ isSubstring t (norm amenity).

Definition passesType (filters : FilterState) (p : Property.t) : Prop :=
  selectedTypes filters <> [] -> In (Property.type p) (selectedTypes filters).

Definition passesPrice (filters : FilterState) (p : Property.t) : Prop :=
  within (priceRange filters) (totalPrice p).

Definition passesSize (filters : FilterState) (p : Property.t) : Prop :=
  within (sizeRange filters) (Property.total_sqft p).

Definition passesLocation (filters : FilterState) (p : Property.t) : Prop :=
  selectedLocations filters <> [] -> In (locationOf p) (selectedLocations filters).

Definition passesAmenities (filters : FilterState) (p : Property.t) : Prop :=
  selectedAmenities filters <> [] ->
  forall amenity, In amenity (selectedAmenities filters) -> In amenity (Property.amenities p).

(** All six narrowing predicates. *)
Definition passesAll (norm : string -> string) (term : string) (filters : FilterState)
    (p : Property.t) : Prop :=
  passesSearch norm term p /\ passesType filters p /\ passesPrice filters p
  /\ passesSize filters p /\ passesLocation filters p /\ passesAmenities filters p.

(** The six predicates in the words of the specification, where the
    lower-cased term is looked for in the fields as they are. *)
Definition passesAllAsWritten : string -> FilterState -> Property.t -> Prop :=
  passesAll (fun field => field).

(** [m] is the least, respectively the greatest, of the values [vs]. *)
Definition minimumOf (vs : list number) (m : number) : Prop :=
  (exists v, In v vs /\ (v == m)%Q) /\ forall v, In v vs -> (m <= v)%Q.

Definition maximumOf (vs : list number) (m : number) : Prop :=
  (exists v, In v vs /\ (v == m)%Q) /\ forall v, In v vs -> (v <= m)%Q.

(** A bound [b] of a range is the least (greatest) value observed. *)
Definition isObservedMin (vs : list number) (b : jsnum) : Prop :=
  exists m, minimumOf vs m /\ jeq_bool b (Num m) = true.

Definition isObservedMax (vs : list number) (b : jsnum) : Prop :=
  exists m, maximumOf vs m /\ jeq_bool b (Num m) = true.

(** The ages of the listings that have a year built. *)
Definition knownAges (currentYear : number) (properties : list Property.t) : list number :=
  flat_map (fun p => match Property.year_built p with
                     | Some y => [(currentYear - y)%Q]
                     | None => []
                     end) properties.

(** A year built, when there is one, is a positive number. *)
Definition wellFormed (p : Property.t) : Prop :=
  forall y, Property.year_built p = Some y -> (0 < y)%Q.

(** Two listings have the same value of the selected sort key. *)
Definition sortKeyEq (sortBy : string) (a b : Property.t) : bool :=
  if String.eqb sortBy "date_listed" || String.eqb sortBy "date_listed_old" then
    Z.eqb (Property.date_listed a) (Property.date_listed b)
  else if String.eqb sortBy "price_low" || String.eqb sortBy "price_high" then
    Qeq_bool (totalPrice a) (totalPrice b)
  else if String.eqb sortBy "size_large" || String.eqb sortBy "size_small" then
    Qeq_bool (Property.total_sqft a) (Property.total_sqft b)
  else if String.eqb sortBy "title" then
    String.eqb (Property.title a) (Property.title b)
  else true.

(** [x] stands somewhere before [y] in [l]. *)
Definition precedes {A : Type} (x y : A) (l : list A) : Prop :=
  exists l1 l2 l3 : list A, l = (l1 ++ x :: l2 ++ y :: l3)%list.

(** The grid states that can be reached from the first render. *)
Inductive reachable (properties : list Property.t) : GridState -> Prop :=
  | reachable_init : reachable properties (initialGrid properties)
  | reachable_step s e : reachable properties s -> reachable properties (step s e).

(** ** Sample listings *)

Definition austin : Address.t := Address.mk "100 Congress Ave" "Austin" "TX" "78701".
Definition reno : Address.t := Address.mk "7 Depot Rd" "Reno" "NV" "89501".

Definition listingA : Property.t :=
  Property.mk "a" "Office Tower" "Corner lot downtown" "office" austin
    10%Q 1000%Q (Some 2020%Q) 1700000000000%Z ["Parking"; "Elevator"] [].

Definition listingB : Property.t :=
  Property.mk "b" "Depot" "Rail-side storage" "warehouse" reno
    5%Q 5000%Q (Some 2000%Q) 1600000000000%Z [] [].

Definition listingC : Property.t :=
  Property.mk "c" "Depot" "Corner shop" "retail" reno
    25%Q 1000%Q None 1600000000000%Z ["Parking"] [].

Definition listingD : Property.t :=
  Property.mk "d" "Annex" "Small unit" "office" austin
    30%Q 900%Q None 1650000000000%Z ["Elevator"] [].

(** A listing that differs from [listingB] in its identifier only. *)
Definition numbered (i : string) : Property.t :=
  Property.mk i "Depot" "Rail-side storage" "warehouse" reno
    5%Q 5000%Q (Some 2000%Q) 1600000000000%Z [] [].

(** [n] listings with the identifiers "i", "ii", "iii", ... *)
Fixpoint tally (n : nat) : string :=
  match n with
  | O => ""
  | S k => String "i" (tally k)
  end.

Definition catalogue (n : nat) : list Property.t :=
  map (fun k => numbered (tally k)) (seq 1 n).

(** The grid over [n] listings after the first effects, and after one
    more page was revealed. *)
Definition mounted (n : nat) : GridState :=
  run (initialGrid (catalogue n))
    [PropertiesChanged (catalogue n); FilteredChanged (catalogue n)].

Definition scrolledOnce (n : nat) : GridState :=
  run (mounted n) [LoadMore; TimerFired].

(** The criteria right after the ranges were initialised from a catalogue. *)
Definition freshFilters (properties : list Property.t) : FilterState :=
  initRanges properties initialFilters.

(** Both sample listings selected, then the type filter set to office. *)
Definition bothSelected : GridState :=
  run (initialGrid [listingA; listingB])
    [PropertiesChanged [listingA; listingB]; FilteredChanged [listingA; listingB];
     ToggleSelect "a" true; ToggleSelect "b" true].

Definition officeOnly : list Property.t :=
  @filterProperties CodeUnitCollator [listingA; listingB] ""
    (handleTypeToggle "office" (freshFilters [listingA; listingB])).

Definition byTitle (properties : list Property.t) : FilterState :=
  handleSortChange "title" (freshFilters properties).

(** ** More of the components *)

(** *** SearchAndFilters.tsx, the rest of the criteria panel *)

(** [handlePriceRangeChange(index, value)] and [handleSizeRangeChange]. *)
Definition handlePriceRangeChange (index : nat) (value : number) (prev : FilterState)
  : FilterState :=
  {| searchTerm := searchTerm prev;
     selectedTypes := selectedTypes prev;
     priceRange := (if (index =? 0)%nat then Num value else fst (priceRange prev),
                    if (index =? 1)%nat then Num value else snd (priceRange prev));
     sizeRange := sizeRange prev;
     selectedLocations := selectedLocations prev;
     selectedAmenities := selectedAmenities prev;
     sortBy := sortBy prev |}.

Definition handleSizeRangeChange (index : nat) (value : number) (prev : FilterState)
  : FilterState :=
  {| searchTerm := searchTerm prev;
     selectedTypes := selectedTypes prev;
     priceRange := priceRange prev;
     sizeRange := (if (index =? 0)%nat then Num value else fst (sizeRange prev),
                   if (index =? 1)%nat then Num value else snd (sizeRange prev));
     selectedLocations := selectedLocations prev;
     selectedAmenities := selectedAmenities prev;
     sortBy := sortBy prev |}.

(** [clearFilters], as far as the criteria go. *)
Definition clearFilters (properties : list Property.t) : FilterState :=
  {| searchTerm := "";
     selectedTypes := [];
     priceRange := (minPrice properties, maxPrice properties);
     sizeRange := (minSize, maxSize properties);
     selectedLocations := [];
     selectedAmenities := [];
     sortBy := "date_listed" |}.

(** The condition under which "Clear all filters" is rendered. *)
Definition clearOffered (properties : list Property.t) (filters : FilterState) : bool :=
  negb (String.eqb (searchTerm filters) "")
  || (0 <? length (selectedTypes filters))%nat
  || negb (jeq_bool (fst (priceRange filters)) (minPrice properties))
  || negb (jeq_bool (snd (priceRange filters)) (maxPrice properties))
  || negb (jeq_bool (fst (sizeRange filters)) minSize)
  || negb (jeq_bool (snd (sizeRange filters)) (maxSize properties))
  || (0 <? length (selectedLocations filters))%nat
  || (0 <? length (selectedAmenities filters))%nat
  || negb (String.eqb (sortBy filters) "date_listed").

(** [Array.from(new Set(xs))]: the elements in the order they first occur. *)
Fixpoint uniq (xs : list string) : list string :=
  match xs with
  | [] => []
  | x :: rest => x :: List.filter (fun y => negb (String.eqb y x)) (uniq rest)
  end.

(** [xs.sort()] on strings compares code units. *)
Definition sortStrings (xs : list string) : list string := Array_sort codeUnitCompare xs.

Definition allLocations (properties : list Property.t) : list string :=
  sortStrings (uniq (map locationOf properties)).

Definition allAmenities (properties : list Property.t) : list string :=
  sortStrings (uniq (flat_map Property.amenities properties)).

(** The entries of a dropdown that match its search box. *)
Definition matchingEntries (entries : list string) (boxTerm : string) : list string :=
  List.filter (fun entry => includes (toLowerCase entry) (toLowerCase boxTerm)) entries.

Definition locations (properties : list Property.t) (locationSearchTerm : string)
  : list string :=
  matchingEntries (allLocations properties) locationSearchTerm.

Definition amenitiesOffered (properties : list Property.t) (amenitiesSearchTerm : string)
  : list string :=
  matchingEntries (allAmenities properties) amenitiesSearchTerm.

(** *** PropertyGrid.tsx, the rest of the grid *)

(** [filteredProperties.filter(p => p.type === t).length], the figures of
    the stats row. *)
Definition countOfType (t : string) (s : GridState) : nat :=
  length (List.filter (fun p => String.eqb (Property.type p) t) (filteredProperties s)).

(** A listing that none of the three figures counts. *)
Definition otherType (p : Property.t) : bool :=
  negb (String.eqb (Property.type p) "office")
  && negb (String.eqb (Property.type p) "warehouse")
  && negb (String.eqb (Property.type p) "retail").

(** The callback of the [IntersectionObserver]. *)
Definition onIntersect (isIntersecting : bool) (s : GridState) : GridState :=
  if isIntersecting && hasMore s && negb (isLoadingMore s)
  then loadMoreProperties s
  else s.

(** One round of scrolling to the sentinel and waiting for the timer. *)
Definition loadCycle (s : GridState) : GridState := timerFired (onIntersect true s).

Fixpoint loadCycles (n : nat) (s : GridState) : GridState :=
  match n with
  | O => s
  | S k => loadCycles k (loadCycle s)
  end.

(** [onRemove] of the compare modal. *)
Definition onRemove (id : string) (s : GridState) : GridState := onToggleSelect id false s.

(** *** PropertyCard / PropertyListItem / PropertyModal *)

(** The amenities block of a card: nothing for no amenities, else the
    first three and, beyond three, the figure of "+n more". *)
Definition amenityPreview (amenities : list string) : option (list string * option nat) :=
  if (0 <? length amenities)%nat
  then Some (firstn 3 amenities,
             if (3 <? length amenities)%nat then Some (length amenities - 3)%nat else None)
  else None.

(** The "More Images" block of the modal: [images.slice(1, 4)] and the
    figure of "+n more". *)
Definition moreImages (images : list string) : option (list string * option nat) :=
  if (1 <? length images)%nat
  then Some (firstn 3 (skipn 1 images),
             if (4 <? length images)%nat then Some (length images - 4)%nat else None)
  else None.

(** *** PropertyImage.tsx *)

Module PropertyImage.

Definition photo (id : string) : string :=
  "https://images.unsplash.com/photo" ++ id ++ "?" ++ "w=800&h=600&q=80".

Definition getDefaultImage (type : string) : string :=
  if String.eqb type "office" then photo "-1497366216548-28220-16351"
  else if String.eqb type "retail" then photo "-1441986300917-64674bd600d8"
  else if String.eqb type "industrial" then photo "-1553062407-98eeb64c6a62"
  else if String.eqb type "warehouse" then photo "-1575992957018-da8c5265b9b4"
  else photo "-1560518883-ce090a7213e7".

Definition officeFallbacks : list string :=
  [photo "-1497366216548-28220-16351"; photo "-1545324418-cc1a3fa10c00";
   photo "-1560264280-88b68371db39"; photo "-1568992687947-868a62a9f521"].

(** The names every object literal inherits; looking one of them up finds a
    member of [Object.prototype], which is truthy and has no element at any
    index. *)
Definition objectPrototypeKeys : list string :=
  ["constructor"; "__proto__"; "hasOwnProperty"; "isPrototypeOf";
   "propertyIsEnumerable"; "toLocaleString"; "toString"; "valueOf";
   "__defineGetter__"; "__defineSetter__"; "__lookupGetter__"; "__lookupSetter__"].

(** [fallbacks[type] || fallbacks.office], as the list of its elements. *)
Definition getFallbackImages (type : string) : list string :=
  if String.eqb type "office" then officeFallbacks
  else if String.eqb type "retail" then
    [photo "-1441986300917-64674bd600d8"; photo "-1553062407-98eeb64c6a62";
     photo "-1575992957018-da8c5265b9b4"]
  else if String.eqb type "industrial" then
    [photo "-1553062407-98eeb64c6a62"; photo "-1575992957018-da8c5265b9b4";
     photo "-1497366216548-28220-16351"]
  else if String.eqb type "warehouse" then
    [photo "-1575992957018-da8c5265b9b4"; photo "-1553062407-98eeb64c6a62";
     photo "-1497366216548-28220-16351"]
  else if Array_includes objectPrototypeKeys type then []
  else officeFallbacks.

Record State : Type := mkState {
  imageSrc : string;
  isLoading : bool;
  hasError : bool;
  retryCount : nat;
  isDefaultImage : bool
}.

(** [!!src] for [src : string | undefined]. *)
Definition present (src : option string) : bool :=
  match src with
  | Some s => negb (String.eqb s "")
  | None => false
  end.

Definition initial (src : option string) (propertyType : string) : State :=
  {| imageSrc := match src with
                 | Some s => if String.eqb s "" then getDefaultImage propertyType else s
                 | None => getDefaultImage propertyType
                 end;
     isLoading := present src;
     hasError := false;
     retryCount := 0;
     isDefaultImage := negb (present src) |}.

Definition handleImageLoad (s : State) : State :=
  {| imageSrc := imageSrc s;
     isLoading := false;
     hasError := false;
     retryCount := retryCount s;
     isDefaultImage := isDefaultImage s |}.

(** The tail of [handleImageError], reached when no fallback is tried. *)
Definition useDefault (propertyType : string) (s : State) : State :=
  if negb (isDefaultImage s) then
    {| imageSrc := getDefaultImage propertyType;
       isLoading := true;
       hasError := false;
       retryCount := retryCount s;
       isDefaultImage := true |}
  else
    {| imageSrc := imageSrc s;
       isLoading := false;
       hasError := true;
       retryCount := retryCount s;
       isDefaultImage := isDefaultImage s |}.

Definition handleImageError (propertyType : string) (s : State) : State :=
  if (retryCount s <? 3)%nat then
    match nth_error (getFallbackImages propertyType) (retryCount s) with
    | Some nextFallback =>
        if String.eqb nextFallback "" then useDefault propertyType s
        else
          {| imageSrc := nextFallback;
             isLoading := true;
             hasError := true;
             retryCount := S (retryCount s);
             isDefaultImage := isDefaultImage s |}
    | None => useDefault propertyType s
    end
  else useDefault propertyType s.

(** The condition under which [handleImageError] tries a fallback. *)
Definition willRetry (propertyType : string) (s : State) : bool :=
  (retryCount s <? 3)%nat
  && match nth_error (getFallbackImages propertyType) (retryCount s) with
     | Some nextFallback => negb (String.eqb nextFallback "")
     | None => false
     end.

(** The "Property Image" placeholder is rendered. *)
Definition placeholderShown (s : State) : bool := hasError s && isDefaultImage s.

Inductive Event : Type :=
  | Loaded
  | Failed.

Definition react (propertyType : string) (s : State) (e : Event) : State :=
  match e with
  | Loaded => handleImageLoad s
  | Failed => handleImageError propertyType s
  end.

Definition after (src : option string) (propertyType : string) (es : list Event) : State :=
  fold_left (react propertyType) es (initial src propertyType).

End PropertyImage.

(** *** vite.config.ts *)

(** [manualChunks(id)]; [None] is the [undefined] of falling off the end. *)
Definition manualChunks (id : string) : option string :=
  if includes id "node_modules" then
    if includes id "react" || includes id "react-dom" then Some "react-vendor"
    else Some "vendor"
  else if includes id "PropertyModal" || includes id "CompareModal" then
    Some "modal-components"
  else if includes id "properties.json" then Some "data-full"
  else if includes id "src/components/" then Some "components"
  else None.

(** *** More sample data *)

Definition listingSmall : Property.t :=
  Property.mk "s" "Kiosk" "Lobby kiosk" "retail" austin
    40%Q 500%Q (Some 0%Q) 1710000000000%Z [] ["k1.jpg"; "k2.jpg"].

(** *** App.tsx *)

Module App.

Record State : Type := mkState {
  properties : list Property.t;
  loading : bool;
  error : option string
}.

(** The [useState] initial values. *)
Definition initial : State :=
  {| properties := []; loading := true; error := None |}.

(** [loadProperties] once its delay is over, on the value imported as
    [propertiesData]: the validation throws [Error('Invalid data format')],
    the [catch] stores its message, [finally] lowers [loading].  The cast
    [propertiesData as Property[]] is reached by arrays only. *)
Definition loadProperties (propertiesData : JsValue) (s : State) : State :=
  if negb (truthy propertiesData) || negb (Array_isArray propertiesData) then
    {| properties := properties s; loading := false; error := Some "Invalid data format" |}
  else
    match propertiesData with
    | JsArray l => {| properties := l; loading := false; error := None |}
    | _ =>
        {| properties := properties s; loading := false;
           error := Some "An error occurred while loading properties" |}
    end.

(** What [App] returns.  [InErrorBoundary] holds what the render of
    [PropertyGrid] inside [ErrorBoundary] completes with. *)
Inductive Screen : Type :=
  | LoadingProperties
  | ErrorLoadingData (message : string)
  | NoPropertiesFound
  | InErrorBoundary (grid : Completion View).

(** [if (error)] on [string | null]. *)
Definition shown (error : option string) : option string :=
  match error with
  | Some message => if String.eqb message "" then None else Some message
  | None => None
  end.

Definition render (s : State) : Screen :=
  if loading s then LoadingProperties
  else
    match shown (error s) with
    | Some message => ErrorLoadingData message
    | None =>
        if (length (properties s) =? 0)%nat then NoPropertiesFound
        else InErrorBoundary (PropertyGrid (JsArray (properties s)))
    end.

(** The screen once the data is in. *)
Definition loaded (propertiesData : JsValue) : Screen :=
  render (loadProperties propertiesData initial).

End App.

(** The grid over 12 listings when the filtered sequence is replaced by 30
    listings during the delay of a load. *)
Definition filteredWhileLoading : GridState :=
  run (mounted 12) [LoadMore; FilteredChanged (catalogue 30); TimerFired].

(** * Properties *)

(** ** Strings *)

Lemma append_cons (c : ascii) (s t : string) : String c s ++ t = String c (s ++ t).
Proof. reflexivity. Qed.

Lemma append_empty (t : string) : "" ++ t = t.
Proof. reflexivity. Qed.

Lemma prefix_spec (sub s : string) :
  String.prefix sub s = true <-> exists post, s = sub ++ post.
Proof.
  revert s. induction sub as [|a sub IH]; intros [|b s]; simpl.
  - split; [intros _; now exists "" | intros _; reflexivity].
  - split; [intros _; now exists (String b s) | intros _; reflexivity].
  - split; [discriminate | intros [post Hpost]; discriminate].
  - destruct (ascii_dec a b) as [->|Hne].
    + rewrite IH. split; intros [post Hpost]; exists post;
        rewrite append_cons in *; congruence.
    + split; [discriminate |].
      intros [post Hpost]. rewrite append_cons in Hpost. congruence.
Qed.

Lemma includes_spec (s sub : string) :
  includes s sub = true <-> isSubstring sub s.
Proof.
  unfold isSubstring. induction s as [|c s IH].
  - cbn [includes]. rewrite orb_false_r, prefix_spec. split.
    + intros [post Hpost]. exists "", post. exact Hpost.
    + intros [pre [post Hpost]]. destruct pre; [now exists post | discriminate].
  - cbn [includes]. rewrite orb_true_iff, prefix_spec, IH. split.
    + intros [[post Hpost] | [pre [post Hpost]]].
      * exists "", post. exact Hpost.
      * exists (String c pre), post. rewrite append_cons. now rewrite Hpost.
    + intros [pre [post Hpost]]. destruct pre as [|c' pre].
      * left. now exists post.
      * right. exists pre, post. rewrite append_cons in Hpost. congruence.
Qed.

Lemma Array_includes_spec (xs : list string) (x : string) :
  Array_includes xs x = true <-> In x xs.
Proof.
  unfold Array_includes. rewrite existsb_exists. split.
  - intros [y [Hin Heq]]. apply String.eqb_eq in Heq. now subst.
  - intros Hin. exists x. split; [exact Hin | apply String.eqb_refl].
Qed.

(** ** Numbers *)

Lemma jle_bool_spec (a b : jsnum) : jle_bool a b = true <-> jle a b.
Proof.
  destruct a, b; simpl; try tauto; try (split; [discriminate | tauto]).
  apply Qle_bool_iff.
Qed.

Lemma jle_bool_total (a b : jsnum) : jle_bool a b = false -> jle_bool b a = true.
Proof.
  destruct a, b; simpl; try discriminate; try reflexivity.
  intros H. apply Qle_bool_iff. destruct (Qlt_le_dec q0 q) as [Hlt|Hle].
  - now apply Qlt_le_weak.
  - apply Qle_bool_iff in Hle. congruence.
Qed.

Lemma jle_refl (a : jsnum) : jle a a.
Proof. destruct a; simpl; auto. apply Qle_refl. Qed.

Lemma jle_trans (a b c : jsnum) : jle a b -> jle b c -> jle a c.
Proof.
  destruct a, b, c; simpl; try tauto. apply Qle_trans.
Qed.

Lemma jeq_bool_spec (a b : jsnum) : jeq_bool a b = true <-> jle a b /\ jle b a.
Proof.
  destruct a, b; simpl; try tauto; try (split; [discriminate | tauto]).
  rewrite Qeq_bool_iff. split.
  - intros H. rewrite H. split; apply Qle_refl.
  - intros [H1 H2]. now apply Qle_antisym.
Qed.

Lemma Math_min_lower (xs : list jsnum) (x : jsnum) :
  In x xs -> jle (Math_min xs) x.
Proof.
  induction xs as [|y xs IH]; [intros [] |].
  intros [-> | Hin]; cbn [Math_min fold_right]; fold (Math_min xs); unfold jmin.
  - destruct (jle_bool x (Math_min xs)) eqn:E; [apply jle_refl |].
    apply jle_bool_spec. now apply jle_bool_total.
  - destruct (jle_bool y (Math_min xs)) eqn:E; [| now apply IH].
    apply jle_bool_spec in E. eapply jle_trans; [exact E | now apply IH].
Qed.

Lemma Math_max_upper (xs : list jsnum) (x : jsnum) :
  In x xs -> jle x (Math_max xs).
Proof.
  induction xs as [|y xs IH]; [intros [] |].
  intros [-> | Hin]; cbn [Math_max fold_right]; fold (Math_max xs); unfold jmax.
  - destruct (jle_bool x (Math_max xs)) eqn:E; [now apply jle_bool_spec | apply jle_refl].
  - destruct (jle_bool y (Math_max xs)) eqn:E; [now apply IH |].
    apply jle_bool_total, jle_bool_spec in E.
    eapply jle_trans; [now apply IH | exact E].
Qed.

Lemma Math_min_attained (xs : list jsnum) :
  Math_min xs = PosInfinity \/ In (Math_min xs) xs.
Proof.
  induction xs as [|y xs IH]; [now left |].
  cbn [Math_min fold_right]; fold (Math_min xs); unfold jmin.
  destruct (jle_bool y (Math_min xs)); [right; now left |].
  destruct IH as [IH | IH]; [now left | right; now right].
Qed.

Lemma Math_max_attained (xs : list jsnum) :
  Math_max xs = NegInfinity \/ In (Math_max xs) xs.
Proof.
  induction xs as [|y xs IH]; [now left |].
  cbn [Math_max fold_right]; fold (Math_max xs); unfold jmax.
  destruct (jle_bool y (Math_max xs)); [| right; now left].
  destruct IH as [IH | IH]; [now left | right; now right].
Qed.

(** ** The narrowing stages *)

Lemma matchesSearch_spec (t : string) (p : Property.t) :
  matchesSearch t p = true <->
  (isSubstring t (toLowerCase (Property.title p))
   \/ isSubstring t (toLowerCase (Property.description p))
   \/ isSubstring t (toLowerCase (Address.city (Property.address p)))
   \/ isSubstring t (toLowerCase (Address.state (Property.address p)))
   \/ exists amenity,
        In amenity (Property.amenities p) /\ isSubstring t (toLowerCase amenity)).
Proof.
  unfold matchesSearch. rewrite !orb_true_iff, !includes_spec, existsb_exists.
  split.
  - intros [[[[H | H] | H] | H] | [a [Hin Ha]]]; auto.
    apply includes_spec in Ha. eauto 10.
  - intros [H | [H | [H | [H | [a [Hin Ha]]]]]]; auto.
    right. exists a. split; [exact Hin | now apply includes_spec].
Qed.

Lemma inRange_spec (range : jsnum * jsnum) (v : number) :
  inRange range v = true <-> within range v.
Proof.
  unfold inRange, within. now rewrite andb_true_iff, !jle_bool_spec.
Qed.

Lemma searchStage_In (term : string) (l : list Property.t) (p : Property.t) :
  In p (searchStage term l) <-> In p l /\ passesSearch toLowerCase term p.
Proof.
  unfold searchStage, passesSearch. destruct term as [|c term].
  - split; [intros Hin; split; [exact Hin | congruence] | tauto].
  - rewrite filter_In, matchesSearch_spec. split.
    + intros [Hin Hm]. split; [exact Hin | intros _; exact Hm].
    + intros [Hin Hm]. split; [exact Hin | apply Hm; discriminate].
Qed.

Lemma typeStage_In (filters : FilterState) (l : list Property.t) (p : Property.t) :
  In p (typeStage filters l) <-> In p l /\ passesType filters p.
Proof.
  unfold typeStage, passesType. destruct (selectedTypes filters) as [|ty tys] eqn:E.
  - split; [intros Hin; split; [exact Hin | congruence] | tauto].
  - rewrite filter_In, Array_includes_spec. split.
    + intros [Hin Hm]. split; [exact Hin | intros _; exact Hm].
    + intros [Hin Hm]. split; [exact Hin | apply Hm; discriminate].
Qed.

Lemma priceStage_In (filters : FilterState) (l : list Property.t) (p : Property.t) :
  In p (priceStage filters l) <-> In p l /\ passesPrice filters p.
Proof. unfold priceStage, passesPrice. now rewrite filter_In, inRange_spec. Qed.

Lemma sizeStage_In (filters : FilterState) (l : list Property.t) (p : Property.t) :
  In p (sizeStage filters l) <-> In p l /\ passesSize filters p.
Proof. unfold sizeStage, passesSize. now rewrite filter_In, inRange_spec. Qed.

Lemma locationStage_In (filters : FilterState) (l : list Property.t) (p : Property.t) :
  In p (locationStage filters l) <-> In p l /\ passesLocation filters p.
Proof.
  unfold locationStage, passesLocation.
  destruct (selectedLocations filters) as [|loc locs] eqn:E.
  - split; [intros Hin; split; [exact Hin | congruence] | tauto].
  - rewrite filter_In, Array_includes_spec. split.
    + intros [Hin Hm]. split; [exact Hin | intros _; exact Hm].
    + intros [Hin Hm]. split; [exact Hin | apply Hm; discriminate].
Qed.

Lemma amenitiesStage_In (filters : FilterState) (l : list Property.t) (p : Property.t) :
  In p (amenitiesStage filters l) <-> In p l /\ passesAmenities filters p.
Proof.
  unfold amenitiesStage, passesAmenities.
  destruct (selectedAmenities filters) as [|am ams] eqn:E.
  - split; [intros Hin; split; [exact Hin | congruence] | tauto].
  - rewrite filter_In, forallb_forall. split.
    + intros [Hin Hm]. split; [exact Hin |].
      intros _ a Ha. apply Array_includes_spec. now apply Hm.
    + intros [Hin Hm]. split; [exact Hin |].
      intros a Ha. apply Array_includes_spec. apply Hm; [discriminate | exact Ha].
Qed.

Lemma narrow_In (properties : list Property.t) (term : string) (filters : FilterState)
    (p : Property.t) :
  In p (narrow properties term filters) <->
  In p properties /\ passesAll toLowerCase term filters p.
Proof.
  unfold narrow, passesAll.
  rewrite amenitiesStage_In, locationStage_In, sizeStage_In, priceStage_In,
    typeStage_In, searchStage_In.
  tauto.
Qed.

(** ** The sort *)

Lemma sort_insert_perm {A : Type} (cmp : A -> A -> number) (x : A) (l : list A) :
  Permutation (sort_insert cmp x l) (x :: l).
Proof.
  induction l as [|y l IH]; simpl; [reflexivity |].
  destruct (Qle_bool (cmp x y) 0); [reflexivity |].
  rewrite IH. apply perm_swap.
Qed.

Lemma Array_sort_perm {A : Type} (cmp : A -> A -> number) (l : list A) :
  Permutation (Array_sort cmp l) l.
Proof.
  induction l as [|x l IH]; simpl; [reflexivity |].
  rewrite sort_insert_perm. now constructor.
Qed.

(** Inserting [x] leaves the elements of a class [P] in the order they
    had, when the comparator does not tell two members of [P] apart. *)
Lemma sort_insert_filter {A : Type} (cmp : A -> A -> number) (P : A -> bool)
    (x : A) (l : list A) :
  (forall y, P x = true -> P y = true -> (cmp x y == 0)%Q) ->
  List.filter P (sort_insert cmp x l) = List.filter P (x :: l).
Proof.
  intros Hcls. induction l as [|y l IH]; [reflexivity |].
  cbn [sort_insert]. destruct (Qle_bool (cmp x y) 0) eqn:E; [reflexivity |].
  cbn [List.filter] in *. rewrite IH.
  destruct (P x) eqn:Px; [| reflexivity].
  destruct (P y) eqn:Py; [| reflexivity].
  exfalso. specialize (Hcls y eq_refl Py).
  assert (Hle : Qle_bool (cmp x y) 0 = true)
    by (apply Qle_bool_iff; rewrite Hcls; apply Qle_refl).
  congruence.
Qed.

Lemma Array_sort_keeps_class {A : Type} (cmp : A -> A -> number) (P : A -> bool) (l : list A) :
  (forall x y, P x = true -> P y = true -> (cmp x y == 0)%Q) ->
  List.filter P (Array_sort cmp l) = List.filter P l.
Proof.
  intros Hcls. induction l as [|x l IH]; [reflexivity |].
  cbn [Array_sort fold_right]. fold (Array_sort cmp l).
  rewrite sort_insert_filter by (intros y; apply Hcls).
  cbn [List.filter]. now rewrite IH.
Qed.

(** ** C1: membership in the filtered result *)

(** C1, as amended.  For every catalogue and criteria, a listing is in the
    filtered result exactly when it is in the catalogue and passes the six
    narrowing predicates, the text search looking for the lower-cased term
    in the lower-cased title, description, city, state or amenity; a
    listing without amenities fails every non-empty amenities filter. *)
Theorem filter_membership `{Collator} (properties : list Property.t) (term : string)
    (filters : FilterState) (p : Property.t) :
  (In p (filterProperties properties term filters) <->
   In p properties /\ passesAll toLowerCase term filters p)
  /\ (Property.amenities p = [] -> selectedAmenities filters <> [] ->
      ~ In p (filterProperties properties term filters)).
Proof.
  assert (Hiff : In p (filterProperties properties term filters) <->
                 In p properties /\ passesAll toLowerCase term filters p).
  { unfold filterProperties. rewrite <- narrow_In.
    split; apply Permutation_in; [| symmetry]; apply Array_sort_perm. }
  split; [exact Hiff |].
  intros Hnone Hsel Hin. apply Hiff in Hin.
  destruct Hin as [_ (_ & _ & _ & _ & _ & Ham)].
  unfold passesAmenities in Ham. specialize (Ham Hsel).
  destruct (selectedAmenities filters) as [|a rest]; [congruence |].
  specialize (Ham a (or_introl eq_refl)). rewrite Hnone in Ham. exact Ham.
Qed.

Lemma filter_membership_witness :
  (In listingC
     (@filterProperties CodeUnitCollator [listingA; listingB; listingC] "DEPOT"
        (freshFilters [listingA; listingB; listingC])) <->
   In listingC [listingA; listingB; listingC]
   /\ passesAll toLowerCase "DEPOT" (freshFilters [listingA; listingB; listingC]) listingC)
  /\ ~ In listingB
       (@filterProperties CodeUnitCollator [listingA; listingB] ""
          {| searchTerm := ""; selectedTypes := [];
             priceRange := (Num 0%Q, Num 100000%Q); sizeRange := (Num 0%Q, Num 100000%Q);
             selectedLocations := []; selectedAmenities := ["Parking"];
             sortBy := "title" |}).
Proof.
  split.
  - apply (@filter_membership CodeUnitCollator).
  - apply (@filter_membership CodeUnitCollator); [reflexivity | discriminate].
Defined.

(** C1 as written fails: "office" is typed, the title is "Office Tower".
    The effect keeps the listing, while the lower-cased term occurs in none
    of its fields as they are. *)
Lemma filter_membership_as_written_fails :
  In listingA
    (@filterProperties CodeUnitCollator [listingA] "office" (freshFilters [listingA]))
  /\ ~ passesAllAsWritten "office" (freshFilters [listingA]) listingA.
Proof.
  split.
  - vm_compute. left. reflexivity.
  - intros [Hsearch _]. specialize (Hsearch ltac:(discriminate)).
    cbv zeta in Hsearch.
    destruct Hsearch as [H | [H | [H | [H | [a [Hin H]]]]]];
      try (apply includes_spec in H; vm_compute in H; discriminate).
    destruct Hin as [<- | [<- | []]];
      apply includes_spec in H; vm_compute in H; discriminate.
Qed.

(** ** The comparison flags *)

Lemma Math_min_Num_spec (vs : list number) (v : number) :
  jeq_bool (Num v) (Math_min (map Num vs)) = true <->
  exists m, minimumOf vs m /\ (v == m)%Q.
Proof.
  split.
  - intros H. destruct (Math_min (map Num vs)) as [|w|] eqn:E; simpl in H;
      try discriminate.
    apply Qeq_bool_iff in H. exists w. split; [| exact H]. split.
    + destruct (Math_min_attained (map Num vs)) as [Hinf | Hin]; [congruence |].
      rewrite E in Hin. apply in_map_iff in Hin. destruct Hin as [u [Hu Hin]].
      injection Hu as ->. exists w. split; [exact Hin | reflexivity].
    + intros u Hu.
      pose proof (Math_min_lower (map Num vs) (Num u) (in_map Num vs u Hu)) as Hl.
      rewrite E in Hl. exact Hl.
  - intros [m [[[u [Hu Hum]] Hlow] Hvm]].
    pose proof (Math_min_lower (map Num vs) (Num u) (in_map Num vs u Hu)) as Hl.
    destruct (Math_min_attained (map Num vs)) as [Hinf | Hin].
    + rewrite Hinf in Hl. destruct Hl.
    + apply in_map_iff in Hin. destruct Hin as [w [Hw Hin]].
      rewrite <- Hw in Hl |- *. simpl in Hl |- *. apply Qeq_bool_iff.
      specialize (Hlow w Hin). lra.
Qed.

Lemma Math_max_Num_spec (vs : list number) (v : number) :
  jeq_bool (Num v) (Math_max (map Num vs)) = true <->
  exists m, maximumOf vs m /\ (v == m)%Q.
Proof.
  split.
  - intros H. destruct (Math_max (map Num vs)) as [|w|] eqn:E; simpl in H;
      try discriminate.
    apply Qeq_bool_iff in H. exists w. split; [| exact H]. split.
    + destruct (Math_max_attained (map Num vs)) as [Hinf | Hin]; [congruence |].
      rewrite E in Hin. apply in_map_iff in Hin. destruct Hin as [u [Hu Hin]].
      injection Hu as ->. exists w. split; [exact Hin | reflexivity].
    + intros u Hu.
      pose proof (Math_max_upper (map Num vs) (Num u) (in_map Num vs u Hu)) as Hl.
      rewrite E in Hl. exact Hl.
  - intros [m [[[u [Hu Hum]] Hupp] Hvm]].
    pose proof (Math_max_upper (map Num vs) (Num u) (in_map Num vs u Hu)) as Hl.
    destruct (Math_max_attained (map Num vs)) as [Hinf | Hin].
    + rewrite Hinf in Hl. destruct Hl.
    + apply in_map_iff in Hin. destruct Hin as [w [Hw Hin]].
      rewrite <- Hw in Hl |- *. simpl in Hl |- *. apply Qeq_bool_iff.
      specialize (Hupp w Hin). lra.
Qed.

Lemma jmin_PosInfinity (b : jsnum) : jmin PosInfinity b = b.
Proof. now destruct b. Qed.

Lemma age_wellFormed (currentYear : number) (p : Property.t) :
  wellFormed p ->
  age currentYear p =
  match Property.year_built p with
  | Some y => Some (currentYear - y)%Q
  | None => None
  end.
Proof.
  unfold wellFormed, age. intros Hwf. destruct (Property.year_built p) as [y|]; [| reflexivity].
  specialize (Hwf y eq_refl).
  destruct (Qeq_bool y 0) eqn:E; [| reflexivity].
  apply Qeq_bool_iff in E. lra.
Qed.

Lemma bestAge_knownAges (currentYear : number) (properties : list Property.t) :
  Forall wellFormed properties ->
  bestAge currentYear properties = Math_min (map Num (knownAges currentYear properties)).
Proof.
  unfold bestAge. induction 1 as [|p ps Hp Hps IH]; [reflexivity |].
  cbn [map Math_min fold_right knownAges flat_map].
  fold (Math_min (map (ageOrInfinity currentYear) ps)).
  fold (knownAges currentYear ps). rewrite IH.
  unfold ageOrInfinity. rewrite age_wellFormed by exact Hp.
  destruct (Property.year_built p) as [y|]; [reflexivity |].
  now rewrite jmin_PosInfinity.
Qed.

Lemma isPriceBest_spec (properties : list Property.t) (p : Property.t) :
  isPriceBest properties p = true <->
  exists m, minimumOf (map totalPrice properties) m /\ (totalPrice p == m)%Q.
Proof.
  unfold isPriceBest, bestPrice.
  rewrite <- (map_map totalPrice Num). apply Math_min_Num_spec.
Qed.

Lemma isSizeBest_spec (properties : list Property.t) (p : Property.t) :
  isSizeBest properties p = true <->
  exists m, maximumOf (map Property.total_sqft properties) m
            /\ (Property.total_sqft p == m)%Q.
Proof.
  unfold isSizeBest, bestSize.
  rewrite <- (map_map Property.total_sqft Num). apply Math_max_Num_spec.
Qed.

Lemma isAgeBest_spec (currentYear : number) (properties : list Property.t)
    (p : Property.t) :
  Forall wellFormed properties -> wellFormed p ->
  isAgeBest currentYear properties p = true <->
  exists y, Property.year_built p = Some y
    /\ exists m, minimumOf (knownAges currentYear properties) m
                 /\ (currentYear - y == m)%Q.
Proof.
  intros Hwf Hp. unfold isAgeBest.
  rewrite age_wellFormed by exact Hp. rewrite bestAge_knownAges by exact Hwf.
  destruct (Property.year_built p) as [y|].
  - rewrite Math_min_Num_spec. split.
    + intros Hm. exists y. split; [reflexivity | exact Hm].
    + intros [y' [Hy Hm]]. injection Hy as <-. exact Hm.
  - split; [discriminate | intros [y [Hy _]]; discriminate].
Qed.

(** ** C2: the best-value flags of the comparison *)

(** C2.  For 2 to 4 listings: a listing is price-best exactly when its
    total price equals the least total price of the set, size-best exactly
    when its total area equals the greatest total area, age-best exactly
    when it has a year built and its age equals the least age among the
    listings that have one; listings that tie with a best one are best as
    well, and with no year built in the set nothing is age-best. *)
Theorem comparison_best (currentYear : number) (properties : list Property.t)
    (p : Property.t) :
  (2 <= length properties <= 4)%nat ->
  Forall wellFormed properties ->
  In p properties ->
  (isPriceBest properties p = true <->
   exists m, minimumOf (map totalPrice properties) m /\ (totalPrice p == m)%Q)
  /\ (isSizeBest properties p = true <->
      exists m, maximumOf (map Property.total_sqft properties) m
                /\ (Property.total_sqft p == m)%Q)
  /\ (isAgeBest currentYear properties p = true <->
      exists y, Property.year_built p = Some y
        /\ exists m, minimumOf (knownAges currentYear properties) m
                     /\ (currentYear - y == m)%Q)
  /\ (forall q, In q properties ->
        ((totalPrice q == totalPrice p)%Q ->
         isPriceBest properties p = true -> isPriceBest properties q = true)
        /\ ((Property.total_sqft q == Property.total_sqft p)%Q ->
            isSizeBest properties p = true -> isSizeBest properties q = true)
        /\ (forall y z, Property.year_built p = Some y -> Property.year_built q = Some z ->
            (currentYear - z == currentYear - y)%Q ->
            isAgeBest currentYear properties p = true ->
            isAgeBest currentYear properties q = true))
  /\ ((forall q, In q properties -> Property.year_built q = None) ->
      forall q, In q properties -> isAgeBest currentYear properties q = false).
Proof.
  intros _ Hwf Hin.
  assert (Hall : forall q, In q properties -> wellFormed q)
    by (now apply List.Forall_forall).
  split; [apply isPriceBest_spec |].
  split; [apply isSizeBest_spec |].
  split; [apply isAgeBest_spec; auto |].
  split.
  - intros q Hq. repeat split.
    + intros Heq. rewrite !isPriceBest_spec. intros [m [Hm Hpm]].
      exists m. split; [exact Hm | lra].
    + intros Heq. rewrite !isSizeBest_spec. intros [m [Hm Hpm]].
      exists m. split; [exact Hm | lra].
    + intros y z Hy Hz Heq.
      rewrite !isAgeBest_spec by auto. intros [y' [Hy' [m [Hm Hpm]]]].
      assert (y' = y) as -> by congruence.
      exists z. split; [exact Hz |]. exists m. split; [exact Hm | lra].
  - intros Hnone q Hq.
    destruct (isAgeBest currentYear properties q) eqn:E; [| reflexivity].
    apply isAgeBest_spec in E; auto.
    destruct E as [y [Hy _]]. rewrite (Hnone q Hq) in Hy. discriminate.
Qed.

Lemma wellFormed_samples : Forall wellFormed [listingA; listingB; listingC].
Proof.
  repeat constructor; intros y Hy; simpl in Hy; try discriminate;
    injection Hy as <-; reflexivity.
Defined.

Lemma comparison_best_witness :
  (isPriceBest [listingA; listingB; listingC] listingA = true <->
   exists m, minimumOf (map totalPrice [listingA; listingB; listingC]) m
             /\ (totalPrice listingA == m)%Q)
  /\ (isAgeBest 2025%Q [listingA; listingB; listingC] listingA = true <->
      exists y, Property.year_built listingA = Some y
        /\ exists m, minimumOf (knownAges 2025%Q [listingA; listingB; listingC]) m
                     /\ (2025 - y == m)%Q).
Proof.
  assert (Hlen : (2 <= length [listingA; listingB; listingC] <= 4)%nat)
    by (simpl; lia).
  assert (Hin : In listingA [listingA; listingB; listingC])
    by (left; reflexivity).
  pose proof (comparison_best 2025%Q [listingA; listingB; listingC] listingA
                Hlen wellFormed_samples Hin) as (Hprice & _ & Hage & _).
  exact (conj Hprice Hage).
Defined.

(** The scenarios of the specification: [a] against [b], and a tie. *)
Example compare_a_b :
  map (isPriceBest [listingA; listingB]) [listingA; listingB] = [true; false]
  /\ map (isSizeBest [listingA; listingB]) [listingA; listingB] = [false; true]
  /\ map (isAgeBest 2025%Q [listingA; listingB]) [listingA; listingB] = [true; false].
Proof. repeat split. Qed.

Example compare_tie :
  map Property.total_sqft [listingA; listingC; listingD] = [1000%Q; 1000%Q; 900%Q]
  /\ map (isSizeBest [listingA; listingC; listingD]) [listingA; listingC; listingD]
     = [true; true; false]
  /\ map (isAgeBest 2025%Q [listingC; listingC]) [listingC; listingC] = [false; false].
Proof. repeat split. Qed.

(** ** C3: the selection cap *)

Lemma toggleSelect_size (id : string) (checked : bool) (prev : gset string) :
  (size prev <= 4)%nat -> (size (toggleSelect id checked prev) <= 4)%nat.
Proof.
  intros Hsize. unfold toggleSelect. destruct checked.
  - destruct (4 <=? size prev)%nat eqn:E; [exact Hsize |].
    apply Nat.leb_gt in E.
    rewrite size_union_alt, size_singleton.
    assert (size (prev ∖ {[id]}) <= size prev)%nat
      by (apply subseteq_size; set_solver).
    lia.
  - etransitivity; [| exact Hsize]. apply subseteq_size. set_solver.
Qed.

Lemma toggles_size (ops : list (string * bool)) (s : gset string) :
  (size s <= 4)%nat -> (size (toggles ops s) <= 4)%nat.
Proof.
  revert s. induction ops as [|op ops IH]; intros s Hs; [exact Hs |].
  cbn [toggles fold_left]. apply IH. now apply toggleSelect_size.
Qed.

Lemma toggle_on_fresh (id : string) (prev : gset string) (n : nat) :
  size prev = n -> (n < 4)%nat -> id ∉ prev ->
  toggleSelect id true prev = {[ id ]} ∪ prev /\ size ({[ id ]} ∪ prev) = S n.
Proof.
  intros Hn Hlt Hfresh. unfold toggleSelect.
  destruct (4 <=? size prev)%nat eqn:E; [apply Nat.leb_le in E; lia |].
  split; [reflexivity |].
  rewrite size_union by set_solver. rewrite size_singleton. lia.
Qed.

Lemma reachable_selection_size (properties : list Property.t) (s : GridState) :
  reachable properties s -> (size (selectedIds s) <= 4)%nat.
Proof.
  induction 1 as [|s e Hs IH].
  - cbn. rewrite size_empty. lia.
  - destruct e; cbn; try exact IH.
    + now apply toggleSelect_size.
    + unfold loadMoreProperties.
      destruct (isLoadingMore s || negb (hasMore s)); exact IH.
    + unfold timerFired. destruct (pendingTimer s); exact IH.
Qed.

(** C3.  Selecting with 4 identifiers already selected returns the set as
    it was; deselecting removes the identifier; so the selection never has
    more than 4 members, along any sequence of toggles and in every state
    the grid can reach; and selecting 5 distinct identifiers in a row from
    the empty selection leaves exactly the first 4. *)
Theorem selection_cap :
  (forall id (prev : gset string),
      (4 <= size prev)%nat -> toggleSelect id true prev = prev)
  /\ (forall id (prev : gset string),
        toggleSelect id false prev = prev ∖ {[ id ]}
        /\ id ∉ toggleSelect id false prev)
  /\ (forall ops, (size (toggles ops ∅) <= 4)%nat)
  /\ (forall properties s, reachable properties s -> (size (selectedIds s) <= 4)%nat)
  /\ (forall a b c d e : string,
        NoDup [a; b; c; d; e] ->
        toggles [(a, true); (b, true); (c, true); (d, true); (e, true)] ∅
        = {[ a; b; c; d ]}
        /\ size (toggles [(a, true); (b, true); (c, true); (d, true); (e, true)] ∅) = 4%nat).
Proof.
  split; [| split; [| split; [| split]]].
  - intros id prev Hfull. unfold toggleSelect.
    destruct (4 <=? size prev)%nat eqn:E; [reflexivity |].
    apply Nat.leb_gt in E. lia.
  - intros id prev. unfold toggleSelect. split; [reflexivity | set_solver].
  - intros ops. apply toggles_size. rewrite size_empty. lia.
  - exact reachable_selection_size.
  - intros a b c d e Hnd.
    assert (Hdist : a ≠ b /\ a ≠ c /\ a ≠ d /\ b ≠ c /\ b ≠ d /\ c ≠ d).
    { repeat (apply NoDup_cons in Hnd as [? Hnd]). set_solver. }
    destruct Hdist as (Hab & Hac & Had & Hbc & Hbd & Hcd).
    cbn [toggles fold_left fst snd].
    destruct (toggle_on_fresh a ∅ 0) as [-> H1];
      [apply size_empty | lia | set_solver |].
    destruct (toggle_on_fresh b ({[a]} ∪ ∅) 1) as [-> H2];
      [exact H1 | lia | set_solver |].
    destruct (toggle_on_fresh c ({[b]} ∪ ({[a]} ∪ ∅)) 2) as [-> H3];
      [exact H2 | lia | set_solver |].
    destruct (toggle_on_fresh d ({[c]} ∪ ({[b]} ∪ ({[a]} ∪ ∅))) 3) as [-> H4];
      [exact H3 | lia | set_solver |].
    assert (Hfull : toggleSelect e true ({[d]} ∪ ({[c]} ∪ ({[b]} ∪ ({[a]} ∪ ∅))))
                    = {[d]} ∪ ({[c]} ∪ ({[b]} ∪ ({[a]} ∪ ∅))))
      by (unfold toggleSelect; now rewrite H4).
    rewrite Hfull. split; [set_solver | exact H4].
Qed.

Lemma selection_cap_witness :
  toggles [("a", true); ("b", true); ("c", true); ("d", true); ("e", true)] ∅
  = ({[ "a"; "b"; "c"; "d" ]} : gset string)
  /\ toggleSelect "e" true {[ "a"; "b"; "c"; "d" ]}
     = ({[ "a"; "b"; "c"; "d" ]} : gset string).
Proof.
  destruct selection_cap as (Hfull & _ & _ & _ & Hfive).
  split.
  - apply (Hfive "a" "b" "c" "d" "e"). repeat constructor; set_solver.
  - apply (Hfull "e"). vm_compute. lia.
Defined.

(** ** The reveal window *)

Lemma reachable_run (properties : list Property.t) (s : GridState) (es : list GridEvent) :
  reachable properties s -> reachable properties (run s es).
Proof.
  revert s. induction es as [|e es IH]; intros s Hs; [exact Hs |].
  cbn [run fold_left]. apply IH. now constructor.
Qed.

Lemma visibleProperties_length (s : GridState) :
  length (visibleProperties s)
  = Nat.min (visibleCount s) (length (filteredProperties s)).
Proof. unfold visibleProperties. apply length_take. Qed.

(** C4.  When the filtered sequence is replaced, by new criteria or by a
    new catalogue, the reveal count is 8 again and [hasMore] says whether
    the count is below the new length; from a count of 16 over 20 items, a
    new sequence of 5 items gives a count of 8, min(8,5) = 5 visible items
    and no more to load. *)
Theorem pagination_reset :
  (forall filtered s,
      filteredProperties (setFilteredProperties filtered s) = filtered
      /\ visibleCount (setFilteredProperties filtered s) = 8%nat
      /\ hasMore (setFilteredProperties filtered s)
         = (visibleCount (setFilteredProperties filtered s) <? length filtered)%nat)
  /\ (forall properties s,
        filteredProperties (propertiesEffect properties s) = properties
        /\ visibleCount (propertiesEffect properties s) = 8%nat
        /\ hasMore (propertiesEffect properties s)
           = (visibleCount (propertiesEffect properties s) <? length properties)%nat)
  /\ (forall s filtered,
        length (filteredProperties s) = 20%nat -> visibleCount s = 16%nat ->
        length filtered = 5%nat ->
        visibleCount (setFilteredProperties filtered s) = 8%nat
        /\ length (visibleProperties (setFilteredProperties filtered s)) = Nat.min 8 5
        /\ Nat.min 8 5 = 5%nat
        /\ hasMore (setFilteredProperties filtered s) = false).
Proof.
  split; [| split].
  - intros filtered s. repeat split.
  - intros properties s. repeat split.
  - intros s filtered _ _ Hlen. split; [reflexivity |].
    rewrite visibleProperties_length. cbn. rewrite Hlen. repeat split.
Qed.

Lemma pagination_reset_witness :
  (length (filteredProperties (scrolledOnce 20)) = 20%nat
   /\ visibleCount (scrolledOnce 20) = 16%nat
   /\ hasMore (scrolledOnce 20) = true)
  /\ visibleCount (setFilteredProperties (catalogue 5) (scrolledOnce 20)) = 8%nat
  /\ length (visibleProperties (setFilteredProperties (catalogue 5) (scrolledOnce 20)))
     = Nat.min 8 5
  /\ Nat.min 8 5 = 5%nat
  /\ hasMore (setFilteredProperties (catalogue 5) (scrolledOnce 20)) = false.
Proof.
  split; [repeat split |].
  destruct pagination_reset as (_ & _ & Hscenario).
  apply (Hscenario (scrolledOnce 20) (catalogue 5)); reflexivity.
Defined.

Lemma loadMoreProperties_guard (s : GridState) :
  isLoadingMore s = true \/ hasMore s = false -> loadMoreProperties s = s.
Proof.
  intros [Hload | Hmore]; unfold loadMoreProperties.
  - now rewrite Hload.
  - rewrite Hmore. now rewrite orb_true_r.
Qed.

Lemma timerFired_after_load (s : GridState) :
  isLoadingMore s = false -> hasMore s = true ->
  timerFired (loadMoreProperties s)
  = {| filteredProperties := filteredProperties s;
       selectedIds := selectedIds s;
       visibleCount := visibleCount s + 8;
       isLoadingMore := false;
       hasMore := (visibleCount s + 8 <? length (filteredProperties s))%nat;
       pendingTimer := None |}.
Proof.
  intros Hload Hmore. unfold loadMoreProperties. now rewrite Hload, Hmore.
Qed.

(** When nothing happens between the trigger and the timer:
    [loadMoreProperties] changes nothing while a load is under way or when
    there is no more to load; otherwise it raises [isLoadingMore], and when
    the timer fires the reveal count is larger by exactly 8, [hasMore] says
    whether the new count is below the length of the filtered sequence, and
    [isLoadingMore] is lowered. *)
Theorem load_more :
  (forall s, isLoadingMore s = true \/ hasMore s = false -> loadMoreProperties s = s)
  /\ (forall s,
        isLoadingMore s = false -> hasMore s = true ->
        isLoadingMore (loadMoreProperties s) = true
        /\ visibleCount (loadMoreProperties s) = visibleCount s
        /\ hasMore (loadMoreProperties s) = hasMore s
        /\ filteredProperties (loadMoreProperties s) = filteredProperties s
        /\ loadMoreProperties (loadMoreProperties s) = loadMoreProperties s
        /\ visibleCount (timerFired (loadMoreProperties s)) = (visibleCount s + 8)%nat
        /\ hasMore (timerFired (loadMoreProperties s))
           = (visibleCount (timerFired (loadMoreProperties s))
              <? length (filteredProperties (timerFired (loadMoreProperties s))))%nat
        /\ isLoadingMore (timerFired (loadMoreProperties s)) = false).
Proof.
  split; [exact loadMoreProperties_guard |].
  intros s Hload Hmore. rewrite timerFired_after_load by assumption.
  unfold loadMoreProperties. rewrite Hload, Hmore. cbn. repeat split.
Qed.

Lemma load_more_witness :
  loadMoreProperties (loadMoreProperties (mounted 20)) = loadMoreProperties (mounted 20)
  /\ visibleCount (timerFired (loadMoreProperties (mounted 20))) = 16%nat
  /\ hasMore (timerFired (loadMoreProperties (mounted 20))) = true
  /\ visibleCount (scrolledOnce 12) = 16%nat
  /\ hasMore (scrolledOnce 12) = false
  /\ loadMoreProperties (scrolledOnce 12) = scrolledOnce 12.
Proof.
  destruct load_more as [Hnoop Hstep].
  destruct (Hstep (mounted 20) eq_refl eq_refl)
    as (_ & _ & _ & _ & Hidem & Hcount & Hmore & _).
  split; [exact Hidem |].
  split; [exact Hcount |].
  split; [rewrite Hmore; reflexivity |].
  split; [reflexivity |].
  split; [reflexivity |].
  apply Hnoop. right. reflexivity.
Defined.

Lemma reachable_visibleCount (properties : list Property.t) (s : GridState) :
  reachable properties s -> (8 <= visibleCount s)%nat.
Proof.
  induction 1 as [|s e Hs IH].
  - cbn. lia.
  - destruct e; cbn; try exact IH; try lia.
    + unfold loadMoreProperties.
      destruct (isLoadingMore s || negb (hasMore s)); exact IH.
    + unfold timerFired. destruct (pendingTimer s); cbn; lia.
Qed.

(** C7, as amended.  The reveal count starts at 8 and is larger by 8 each
    time a triggered load completes; it is never below 8, so it is the
    number of materialized items, not the count, that never exceeds the
    length of the filtered sequence: the materialized items are the first
    [visibleCount] elements, min(count, length) of them. *)
Theorem reveal_window :
  (forall properties, visibleCount (initialGrid properties) = 8%nat)
  /\ (forall s,
        isLoadingMore s = false -> hasMore s = true ->
        visibleCount (timerFired (loadMoreProperties s)) = (visibleCount s + 8)%nat)
  /\ (forall properties s, reachable properties s -> (8 <= visibleCount s)%nat)
  /\ (forall s,
        visibleProperties s = firstn (visibleCount s) (filteredProperties s)
        /\ length (visibleProperties s)
           = Nat.min (visibleCount s) (length (filteredProperties s))
        /\ (length (visibleProperties s) <= length (filteredProperties s))%nat).
Proof.
  split; [reflexivity |].
  split; [intros s Hload Hmore; now rewrite timerFired_after_load |].
  split; [exact reachable_visibleCount |].
  intros s. split; [reflexivity |].
  split; [apply visibleProperties_length |].
  rewrite visibleProperties_length. lia.
Qed.

Lemma reveal_window_witness :
  visibleCount (timerFired (loadMoreProperties (mounted 12))) = (8 + 8)%nat
  /\ (8 <= visibleCount (scrolledOnce 12))%nat
  /\ length (visibleProperties (scrolledOnce 12)) = 12%nat.
Proof.
  destruct reveal_window as (_ & Hgrow & Hlow & Hslice).
  split; [apply (Hgrow (mounted 12)); reflexivity |].
  split.
  - apply (Hlow (catalogue 12)). unfold scrolledOnce, mounted.
    repeat apply reachable_run. constructor.
  - destruct (Hslice (scrolledOnce 12)) as (_ & Hlen & _). rewrite Hlen. reflexivity.
Defined.

(** C7 as written fails: over 5 listings the count is 8 from the start,
    and over 12 listings one completed load takes it to 16. *)
Lemma reveal_count_exceeds_length :
  (reachable (catalogue 5) (mounted 5)
   /\ ~ (visibleCount (mounted 5) <= length (filteredProperties (mounted 5)))%nat)
  /\ (reachable (catalogue 12) (scrolledOnce 12)
      /\ ~ (visibleCount (scrolledOnce 12)
            <= length (filteredProperties (scrolledOnce 12)))%nat).
Proof.
  split; split.
  - apply reachable_run. constructor.
  - cbn. lia.
  - unfold scrolledOnce, mounted. repeat apply reachable_run. constructor.
  - cbn. lia.
Qed.

(** ** C8: the sort is last and stable *)

Lemma filter_split {A : Type} (P : A -> bool) (l front : list A) (x : A) (back : list A) :
  List.filter P l = (front ++ x :: back)%list ->
  exists l1 l2, l = (l1 ++ x :: l2)%list
                /\ List.filter P l1 = front /\ List.filter P l2 = back.
Proof.
  revert front. induction l as [|z l IH]; intros front Hf.
  - destruct front; discriminate.
  - cbn [List.filter] in Hf. destruct (P z) eqn:Pz.
    + destruct front as [|a front].
      * injection Hf as -> Hback. exists [], l. repeat split. exact Hback.
      * injection Hf as -> Hrest. destruct (IH front Hrest) as (l1 & l2 & -> & H1 & H2).
        exists (a :: l1), l2. repeat split; [| exact H2].
        cbn [List.filter]. now rewrite Pz, H1.
    + destruct (IH front Hf) as (l1 & l2 & -> & H1 & H2).
      exists (z :: l1), l2. repeat split; [| exact H2].
      cbn [List.filter]. now rewrite Pz.
Qed.

Lemma precedes_filter {A : Type} (P : A -> bool) (x y : A) (l : list A) :
  P x = true -> P y = true ->
  precedes x y l <-> precedes x y (List.filter P l).
Proof.
  intros Px Py. unfold precedes. split.
  - intros (l1 & l2 & l3 & ->).
    exists (List.filter P l1), (List.filter P l2), (List.filter P l3).
    rewrite List.filter_app. cbn [List.filter]. rewrite Px.
    rewrite List.filter_app. cbn [List.filter]. now rewrite Py.
  - intros (f1 & f2 & f3 & Hf).
    destruct (filter_split P l f1 x _ Hf) as (l1 & rest & -> & _ & Hrest).
    destruct (filter_split P rest f2 y _ Hrest) as (l2 & l3 & -> & _ & _).
    now exists l1, l2, l3.
Qed.

Ltac next_key E :=
  match goal with
  | |- context [String.eqb ?s ?k] => destruct (String.eqb s k) eqn:E; cbn [orb]
  end.

Lemma compareFn_tie `{Collator} (sortBy : string) (a b : Property.t) :
  (forall s, (localeCompare s s == 0)%Q) ->
  sortKeyEq sortBy a b = true -> (compareFn sortBy a b == 0)%Q.
Proof.
  intros Hrefl. unfold sortKeyEq, compareFn.
  next_key E1; [intros Hk; apply Z.eqb_eq in Hk; rewrite Hk, Z.sub_diag; reflexivity |].
  next_key E2; [intros Hk; apply Z.eqb_eq in Hk; rewrite Hk, Z.sub_diag; reflexivity |].
  next_key E3; [intros Hk; apply Qeq_bool_iff in Hk; lra |].
  next_key E4; [intros Hk; apply Qeq_bool_iff in Hk; lra |].
  next_key E5; [intros Hk; apply Qeq_bool_iff in Hk; lra |].
  next_key E6; [intros Hk; apply Qeq_bool_iff in Hk; lra |].
  next_key E7; [intros Hk; apply String.eqb_eq in Hk; rewrite Hk; apply Hrefl |].
  reflexivity.
Qed.

Lemma sortKeyEq_class (sortBy : string) (a x y : Property.t) :
  sortKeyEq sortBy a x = true -> sortKeyEq sortBy a y = true ->
  sortKeyEq sortBy x y = true.
Proof.
  unfold sortKeyEq.
  destruct (String.eqb sortBy "date_listed" || String.eqb sortBy "date_listed_old").
  { rewrite !Z.eqb_eq. congruence. }
  destruct (String.eqb sortBy "price_low" || String.eqb sortBy "price_high").
  { rewrite !Qeq_bool_iff. intros H1 H2. lra. }
  destruct (String.eqb sortBy "size_large" || String.eqb sortBy "size_small").
  { rewrite !Qeq_bool_iff. intros H1 H2. lra. }
  destruct (String.eqb sortBy "title"); [| reflexivity].
  rewrite !String.eqb_eq. congruence.
Qed.

Lemma sortKeyEq_refl (sortBy : string) (a : Property.t) : sortKeyEq sortBy a a = true.
Proof.
  unfold sortKeyEq.
  destruct (String.eqb sortBy "date_listed" || String.eqb sortBy "date_listed_old");
    [apply Z.eqb_refl |].
  destruct (String.eqb sortBy "price_low" || String.eqb sortBy "price_high");
    [apply Qeq_bool_iff; reflexivity |].
  destruct (String.eqb sortBy "size_large" || String.eqb sortBy "size_small");
    [apply Qeq_bool_iff; reflexivity |].
  destruct (String.eqb sortBy "title"); [apply String.eqb_refl | reflexivity].
Qed.

(** C8.  The sort is the last stage, it only reorders, and it is stable for
    the selected key: the listings that share the sort-key value of any
    listing [a] come out in the order they had in the narrowed sequence,
    and so two listings with equal sort keys stand in the output in the
    order they stood in before the sort. *)
Theorem sort_stable `{Collator} (properties : list Property.t) (term : string)
    (filters : FilterState) :
  (forall s, (localeCompare s s == 0)%Q) ->
  filterProperties properties term filters
  = Array_sort (compareFn (sortBy filters)) (narrow properties term filters)
  /\ Permutation (filterProperties properties term filters)
       (narrow properties term filters)
  /\ (forall a,
        List.filter (sortKeyEq (sortBy filters) a)
          (filterProperties properties term filters)
        = List.filter (sortKeyEq (sortBy filters) a) (narrow properties term filters))
  /\ (forall x y,
        sortKeyEq (sortBy filters) x y = true ->
        precedes x y (filterProperties properties term filters)
        <-> precedes x y (narrow properties term filters)).
Proof.
  intros Hrefl.
  assert (Hstable : forall a,
             List.filter (sortKeyEq (sortBy filters) a)
               (filterProperties properties term filters)
             = List.filter (sortKeyEq (sortBy filters) a)
                 (narrow properties term filters)).
  { intros a. unfold filterProperties. apply Array_sort_keeps_class.
    intros x y Hx Hy. apply compareFn_tie; [exact Hrefl |].
    now apply (sortKeyEq_class _ a). }
  split; [reflexivity |].
  split; [apply Array_sort_perm |].
  split; [exact Hstable |].
  intros x y Hxy.
  rewrite (precedes_filter (sortKeyEq (sortBy filters) x) x y
             (filterProperties properties term filters))
    by (apply sortKeyEq_refl || exact Hxy).
  rewrite (precedes_filter (sortKeyEq (sortBy filters) x) x y
             (narrow properties term filters))
    by (apply sortKeyEq_refl || exact Hxy).
  now rewrite Hstable.
Qed.

Lemma codeUnitCompare_refl (s : string) : (codeUnitCompare s s == 0)%Q.
Proof.
  unfold codeUnitCompare. pose proof (String.compare_antisym s s) as Hanti.
  destruct (String.compare s s); try discriminate. reflexivity.
Defined.

Lemma sort_stable_witness :
  precedes listingB listingC
    (@filterProperties CodeUnitCollator [listingB; listingA; listingC] ""
       (byTitle [listingB; listingA; listingC]))
  <-> precedes listingB listingC
        (narrow [listingB; listingA; listingC] "" (byTitle [listingB; listingA; listingC])).
Proof.
  destruct (@sort_stable CodeUnitCollator [listingB; listingA; listingC] ""
              (byTitle [listingB; listingA; listingC]) codeUnitCompare_refl)
    as (_ & _ & _ & Hpair).
  apply Hpair. reflexivity.
Defined.

(** Two listings titled "Depot" keep their order on either side of
    "Office Tower", whichever of the two came first. *)
Example sort_ties_keep_order :
  @filterProperties CodeUnitCollator [listingB; listingA; listingC] ""
    (byTitle [listingB; listingA; listingC]) = [listingB; listingC; listingA]
  /\ @filterProperties CodeUnitCollator [listingC; listingA; listingB] ""
       (byTitle [listingC; listingA; listingB]) = [listingC; listingB; listingA].
Proof. split; vm_compute; reflexivity. Qed.

(** ** C10: the selection and the comparison under filtering *)

Lemma filter_sublist {A : Type} (P : A -> bool) (l : list A) :
  List.filter P l `sublist_of` l.
Proof.
  induction l as [|x l IH]; cbn [List.filter]; [constructor |].
  destruct (P x); now constructor.
Qed.

(** C10.  Replacing the filtered sequence leaves the selection as it was,
    with its size and with the offer to compare; what the comparison is
    given is the filtered sequence restricted to the selected identifiers,
    in the order of the filtered sequence, cut after 4; so a selected
    identifier that no filtered listing bears is absent from it. *)
Theorem selection_under_filtering :
  (forall filtered s,
      selectedIds (setFilteredProperties filtered s) = selectedIds s
      /\ size (selectedIds (setFilteredProperties filtered s)) = size (selectedIds s)
      /\ compareOffered (setFilteredProperties filtered s) = compareOffered s)
  /\ (forall properties s, selectedIds (propertiesEffect properties s) = selectedIds s)
  /\ (forall s,
        compareProperties s
        = firstn 4 (List.filter (fun p => bool_decide (Property.id p ∈ selectedIds s))
                      (filteredProperties s))
        /\ (length (compareProperties s) <= 4)%nat
        /\ compareProperties s `sublist_of` filteredProperties s
        /\ (forall p, In p (compareProperties s) ->
                      In p (filteredProperties s) /\ Property.id p ∈ selectedIds s))
  /\ (forall s i,
        i ∈ selectedIds s ->
        (forall p, In p (filteredProperties s) -> Property.id p <> i) ->
        forall p, In p (compareProperties s) -> Property.id p <> i).
Proof.
  assert (Hmem : forall s p, In p (compareProperties s) ->
                   In p (filteredProperties s) /\ Property.id p ∈ selectedIds s).
  { intros s p Hin. unfold compareProperties in Hin.
    apply list_elem_of_In, elem_of_take in Hin as (k & Hk & _).
    apply list_elem_of_lookup_2, list_elem_of_In, filter_In in Hk as [Hk Hsel].
    split; [exact Hk | now apply bool_decide_eq_true in Hsel]. }
  split; [intros filtered s; repeat split |].
  split; [intros properties s; reflexivity |].
  split.
  - intros s. split; [reflexivity |].
    split; [unfold compareProperties; rewrite length_take; lia |].
    split; [| apply Hmem].
    unfold compareProperties. etransitivity; [apply sublist_take | apply filter_sublist].
  - intros s i _ Hnone p Hin. apply Hnone. now apply Hmem.
Qed.

Lemma selection_under_filtering_witness :
  officeOnly = [listingA]
  /\ selectedIds (setFilteredProperties officeOnly bothSelected)
     = ({[ "a"; "b" ]} : gset string)
  /\ compareOffered (setFilteredProperties officeOnly bothSelected) = true
  /\ compareProperties (setFilteredProperties officeOnly bothSelected) = [listingA]
  /\ forall p, In p (compareProperties (setFilteredProperties officeOnly bothSelected)) ->
               Property.id p <> "b".
Proof.
  destruct selection_under_filtering as (_ & _ & _ & Habsent).
  split; [vm_compute; reflexivity |].
  split; [vm_compute; reflexivity |].
  split; [vm_compute; reflexivity |].
  split; [vm_compute; reflexivity |].
  apply (Habsent (setFilteredProperties officeOnly bothSelected) "b").
  - vm_compute. reflexivity.
  - intros p Hin. change (In p officeOnly) in Hin.
    assert (Hoffice : officeOnly = [listingA]) by (vm_compute; reflexivity).
    rewrite Hoffice in Hin. destruct Hin as [<- | []]. discriminate.
Defined.

(** ** C5: where the range bounds come from *)

Lemma Math_min_observed (vs : list number) :
  vs <> [] -> isObservedMin vs (Math_min (map Num vs)).
Proof.
  intros Hne. destruct vs as [|v0 vs0] eqn:Evs; [congruence |]. rewrite <- Evs.
  assert (Hv0 : In v0 vs) by (rewrite Evs; now left).
  pose proof (Math_min_lower (map Num vs) (Num v0) (in_map Num vs v0 Hv0)) as Hl.
  destruct (Math_min_attained (map Num vs)) as [Hinf | Hin].
  - rewrite Hinf in Hl. destruct Hl.
  - apply in_map_iff in Hin. destruct Hin as [w [Hw Hin]].
    exists w. split.
    + split; [exists w; split; [exact Hin | reflexivity] |].
      intros u Hu.
      pose proof (Math_min_lower (map Num vs) (Num u) (in_map Num vs u Hu)) as Hlu.
      rewrite <- Hw in Hlu. exact Hlu.
    + rewrite <- Hw. simpl. apply Qeq_bool_iff. reflexivity.
Qed.

Lemma Math_max_observed (vs : list number) :
  vs <> [] -> isObservedMax vs (Math_max (map Num vs)).
Proof.
  intros Hne. destruct vs as [|v0 vs0] eqn:Evs; [congruence |]. rewrite <- Evs.
  assert (Hv0 : In v0 vs) by (rewrite Evs; now left).
  pose proof (Math_max_upper (map Num vs) (Num v0) (in_map Num vs v0 Hv0)) as Hl.
  destruct (Math_max_attained (map Num vs)) as [Hinf | Hin].
  - rewrite Hinf in Hl. destruct Hl.
  - apply in_map_iff in Hin. destruct Hin as [w [Hw Hin]].
    exists w. split.
    + split; [exists w; split; [exact Hin | reflexivity] |].
      intros u Hu.
      pose proof (Math_max_upper (map Num vs) (Num u) (in_map Num vs u Hu)) as Hlu.
      rewrite <- Hw in Hlu. exact Hlu.
    + rewrite <- Hw. simpl. apply Qeq_bool_iff. reflexivity.
Qed.

Lemma applyEdit_ranges (e : CriteriaEdit) (prev : FilterState) :
  priceRange (applyEdit e prev) = priceRange prev
  /\ sizeRange (applyEdit e prev) = sizeRange prev.
Proof. destruct e; split; reflexivity. Qed.

(** C5, as amended.  For a non-empty catalogue the range effect sets the
    price range to the least and the greatest total price of the whole
    catalogue, and the area range to the fixed floor of 600 and the
    greatest total area of the whole catalogue; the bounds are the same
    whatever the criteria were, and no edit that narrows or reorders the
    filtered subset touches them. *)
Theorem range_initialisation (properties : list Property.t) (prev : FilterState) :
  properties <> [] ->
  isObservedMin (map totalPrice properties) (fst (priceRange (initRanges properties prev)))
  /\ isObservedMax (map totalPrice properties)
       (snd (priceRange (initRanges properties prev)))
  /\ fst (sizeRange (initRanges properties prev)) = Num 600%Q
  /\ isObservedMax (map Property.total_sqft properties)
       (snd (sizeRange (initRanges properties prev)))
  /\ (forall prev',
        priceRange (initRanges properties prev') = priceRange (initRanges properties prev)
        /\ sizeRange (initRanges properties prev') = sizeRange (initRanges properties prev))
  /\ (forall edits,
        priceRange (fold_right applyEdit (initRanges properties prev) edits)
        = priceRange (initRanges properties prev)
        /\ sizeRange (fold_right applyEdit (initRanges properties prev) edits)
           = sizeRange (initRanges properties prev)).
Proof.
  intros Hne.
  assert (Hprices : map totalPrice properties <> [])
    by (destruct properties; [congruence | discriminate]).
  assert (Hsizes : map Property.total_sqft properties <> [])
    by (destruct properties; [congruence | discriminate]).
  assert (Hinit : forall q,
             priceRange (initRanges properties q)
             = (Math_min (map Num (map totalPrice properties)),
                Math_max (map Num (map totalPrice properties)))
             /\ sizeRange (initRanges properties q)
                = (Num 600%Q, Math_max (map Num (map Property.total_sqft properties)))).
  { intros q. rewrite !map_map.
    destruct properties; [congruence | split; reflexivity]. }
  destruct (Hinit prev) as [Hp Hs].
  split; [rewrite Hp; now apply Math_min_observed |].
  split; [rewrite Hp; now apply Math_max_observed |].
  split; [now rewrite Hs |].
  split; [rewrite Hs; now apply Math_max_observed |].
  split.
  - intros prev'. destruct (Hinit prev') as [-> ->]. now rewrite Hp, Hs.
  - induction edits as [|e edits [IHp IHs]]; cbn [fold_right].
    + split; reflexivity.
    + destruct (applyEdit_ranges e
                  (fold_right applyEdit (initRanges properties prev) edits)) as [-> ->].
      split; assumption.
Qed.

Lemma range_initialisation_witness :
  fst (sizeRange (freshFilters [listingA; listingB])) = Num 600%Q
  /\ isObservedMax (map Property.total_sqft [listingA; listingB])
       (snd (sizeRange (freshFilters [listingA; listingB])))
  /\ priceRange (handleTypeToggle "office" (freshFilters [listingA; listingB]))
     = priceRange (freshFilters [listingA; listingB]).
Proof.
  assert (Hne : [listingA; listingB] <> []) by discriminate.
  destruct (range_initialisation [listingA; listingB] initialFilters Hne)
    as (_ & _ & Hfloor & Hmax & _ & Hedits).
  split; [exact Hfloor |].
  split; [exact Hmax |].
  exact (proj1 (Hedits [TypeToggle "office"])).
Defined.

(** C5 as written fails: over listings of 1000 and 5000 square feet the
    area range starts at 600, which is not the least area observed. *)
Lemma size_floor_not_observed :
  fst (sizeRange (initRanges [listingA; listingB] initialFilters)) = Num 600%Q
  /\ ~ isObservedMin (map Property.total_sqft [listingA; listingB])
         (fst (sizeRange (initRanges [listingA; listingB] initialFilters))).
Proof.
  split; [reflexivity |].
  intros [m [[[v [Hin Hv]] _] Heq]]. cbn in Heq. apply Qeq_bool_iff in Heq.
  destruct Hin as [<- | [<- | []]]; cbn in Hv; lra.
Qed.

(** ** C9: the first render on a malformed collection *)

(** [PropertyGrid] taken alone.  With [properties] absent the render throws
    before the safety check is reached: the state [filteredProperties] is
    [undefined] too, and its [length] and [slice] are read first.  A number
    or a plain object throws at [slice].  Only a string gets as far as the
    check and shows "No Properties Available". *)
Theorem safety_check_unreached :
  PropertyGrid JsUndefined = TypeError
  /\ PropertyGrid JsNull = TypeError
  /\ (forall n, PropertyGrid (JsNumber n) = TypeError)
  /\ PropertyGrid JsPlainObject = TypeError
  /\ (forall s, PropertyGrid (JsString s) = Normal NoPropertiesAvailable)
  /\ (forall l, PropertyGrid (JsArray l) = Normal (Listing (JsArray (firstn 8 l)))).
Proof.
  repeat split.
  intros s. unfold PropertyGrid. cbn. now rewrite orb_true_r.
Qed.

(** * Further properties of the components *)

(** ** The criteria panel *)

Lemma filterProperties_In `{Collator} (properties : list Property.t) (term : string)
    (filters : FilterState) (p : Property.t) :
  In p (filterProperties properties term filters) <->
  In p properties /\ passesAll toLowerCase term filters p.
Proof.
  unfold filterProperties. rewrite <- narrow_In.
  split; apply Permutation_in; [| symmetry]; apply Array_sort_perm.
Qed.

Lemma filter_neq_absent (x : string) (xs : list string) :
  ~ In x xs -> List.filter (fun y => negb (String.eqb y x)) xs = xs.
Proof.
  induction xs as [|z xs IH]; intros Hx; [reflexivity |].
  cbn [List.filter]. destruct (String.eqb_spec z x) as [-> | Hne].
  - exfalso. apply Hx. now left.
  - cbn [negb]. rewrite IH; [reflexivity |]. intros Hin. apply Hx. now right.
Qed.

Lemma filter_neq_In (x y : string) (xs : list string) :
  In y (List.filter (fun z => negb (String.eqb z x)) xs) <-> y <> x /\ In y xs.
Proof.
  rewrite filter_In, negb_true_iff, String.eqb_neq. tauto.
Qed.

Lemma toggleMember_In (x y : string) (xs : list string) :
  In y (toggleMember x xs) <-> (y <> x /\ In y xs) \/ (y = x /\ ~ In x xs).
Proof.
  unfold toggleMember. destruct (Array_includes xs x) eqn:E.
  - apply Array_includes_spec in E. rewrite filter_neq_In. tauto.
  - assert (Hx : ~ In x xs).
    { intros Hin. apply Array_includes_spec in Hin. congruence. }
    rewrite in_app_iff. cbn [In].
    destruct (string_dec y x) as [-> | Hne]; [tauto |].
    split; [intros [Hin | [Heq | []]]; [tauto | congruence] | tauto].
Qed.

(** Ticking a box of the type, location or amenity dropdown flips the
    membership of that entry in the selected list, leaves every other
    entry in or out as it was, and never introduces a duplicate. *)
Theorem toggle_flips_membership (x : string) (xs : list string) :
  (In x (toggleMember x xs) <-> ~ In x xs)
  /\ (forall y, y <> x -> (In y (toggleMember x xs) <-> In y xs))
  /\ (NoDup xs -> NoDup (toggleMember x xs)).
Proof.
  split; [| split].
  - rewrite toggleMember_In. tauto.
  - intros y Hne. rewrite toggleMember_In. tauto.
  - intros Hnd. unfold toggleMember. destruct (Array_includes xs x) eqn:E.
    + apply (proj2 (NoDup_ListNoDup _)). apply List.NoDup_filter.
      now apply NoDup_ListNoDup.
    + assert (Hx : ~ In x xs).
      { intros Hin. apply Array_includes_spec in Hin. congruence. }
      apply NoDup_app. repeat split.
      * exact Hnd.
      * intros y Hy Hyx. apply list_elem_of_In in Hy.
        apply list_elem_of_In in Hyx. destruct Hyx as [<- | []]. now apply Hx.
      * apply NoDup_singleton.
Qed.

Lemma toggle_flips_membership_witness :
  toggleMember "retail" ["office"; "retail"] = ["office"]
  /\ NoDup (toggleMember "warehouse" ["office"; "retail"]).
Proof.
  split; [reflexivity |].
  apply (toggle_flips_membership "warehouse" ["office"; "retail"]).
  repeat constructor; set_solver.
Defined.

(** Ticking a box that was not ticked and unticking it again gives back
    the selected list it started from, in the same order; for a box that
    was ticked, unticking and ticking again gives the same entries, the
    toggled one last. *)
Theorem toggle_twice (x : string) (xs : list string) :
  (~ In x xs -> toggleMember x (toggleMember x xs) = xs)
  /\ (In x xs ->
      toggleMember x (toggleMember x xs)
      = (List.filter (fun y => negb (String.eqb y x)) xs ++ [x])%list).
Proof.
  split; intros Hx.
  - assert (E : Array_includes xs x = false).
    { destruct (Array_includes xs x) eqn:E; [| reflexivity].
      apply Array_includes_spec in E. contradiction. }
    unfold toggleMember at 2. rewrite E. unfold toggleMember.
    assert (E' : Array_includes (xs ++ [x]) x = true).
    { apply Array_includes_spec, in_app_iff. right. now left. }
    rewrite E'. rewrite List.filter_app. cbn [List.filter].
    rewrite String.eqb_refl. cbn [negb]. rewrite app_nil_r.
    now apply filter_neq_absent.
  - assert (E : Array_includes xs x = true) by now apply Array_includes_spec.
    unfold toggleMember at 2. rewrite E. unfold toggleMember.
    assert (E' : Array_includes (List.filter (fun y => negb (String.eqb y x)) xs) x
                 = false).
    { apply not_true_is_false. intros E'.
      apply Array_includes_spec, filter_neq_In in E'. tauto. }
    now rewrite E'.
Qed.

Lemma toggle_twice_witness :
  toggleMember "Parking" (toggleMember "Parking" ["Elevator"; "Dock"])
  = ["Elevator"; "Dock"]
  /\ toggleMember "Elevator" (toggleMember "Elevator" ["Elevator"; "Dock"])
     = ["Dock"; "Elevator"].
Proof.
  split.
  - apply (toggle_twice "Parking" ["Elevator"; "Dock"]).
    intros [H | [H | []]]; discriminate.
  - apply (toggle_twice "Elevator" ["Elevator"; "Dock"]). now left.
Defined.

Lemma jeq_bool_refl (a : jsnum) : jeq_bool a a = true.
Proof. destruct a; cbn; try reflexivity. apply Qeq_bool_iff. reflexivity. Qed.

Lemma jle_bool_jeq_l (a a' x : jsnum) :
  jeq_bool a a' = true -> jle_bool a x = jle_bool a' x.
Proof.
  intros Heq. apply jeq_bool_spec in Heq as [H1 H2].
  apply eq_true_iff_eq. rewrite !jle_bool_spec. split; intros H.
  - eapply jle_trans; eassumption.
  - eapply jle_trans; eassumption.
Qed.

Lemma jle_bool_jeq_r (a a' x : jsnum) :
  jeq_bool a a' = true -> jle_bool x a = jle_bool x a'.
Proof.
  intros Heq. apply jeq_bool_spec in Heq as [H1 H2].
  apply eq_true_iff_eq. rewrite !jle_bool_spec. split; intros H.
  - eapply jle_trans; eassumption.
  - eapply jle_trans; eassumption.
Qed.

Lemma inRange_jeq (r r' : jsnum * jsnum) (v : number) :
  jeq_bool (fst r) (fst r') = true -> jeq_bool (snd r) (snd r') = true ->
  inRange r v = inRange r' v.
Proof.
  intros Hlo Hhi. unfold inRange.
  now rewrite (jle_bool_jeq_l _ _ _ Hlo), (jle_bool_jeq_r _ _ _ Hhi).
Qed.

Lemma length_zero_nil {A : Type} (l : list A) : (0 <? length l)%nat = false -> l = [].
Proof. destruct l; [reflexivity | discriminate]. Qed.

(** "Clear all filters" is not offered on the criteria it produces; for a
    non-empty catalogue these are the criteria the range effect gives at
    the start; and whenever the button is not offered, every search gives
    the result the cleared criteria give. *)
Theorem clear_filters_resets `{Collator} (properties : list Property.t) :
  clearOffered properties (clearFilters properties) = false
  /\ (properties <> [] -> clearFilters properties = initRanges properties initialFilters)
  /\ (forall filters term,
        clearOffered properties filters = false ->
        filterProperties properties term filters
        = filterProperties properties term (clearFilters properties)).
Proof.
  split; [| split].
  - unfold clearOffered. cbn. now rewrite !jeq_bool_refl.
  - intros Hne. destruct properties; [congruence | reflexivity].
  - intros filters term Hoff. unfold clearOffered in Hoff.
    repeat (apply orb_false_elim in Hoff as [Hoff ?]).
    repeat match goal with
           | Hn : negb _ = false |- _ => apply negb_false_iff in Hn
           end.
    assert (Hty : selectedTypes filters = []) by now apply length_zero_nil.
    assert (Hloc : selectedLocations filters = []) by now apply length_zero_nil.
    assert (Ham : selectedAmenities filters = []) by now apply length_zero_nil.
    assert (Hsort : sortBy filters = "date_listed") by now apply String.eqb_eq.
    unfold filterProperties, narrow, amenitiesStage, locationStage, typeStage,
      sizeStage, priceStage.
    rewrite Hty, Hloc, Ham, Hsort. cbn.
    f_equal.
    rewrite (List.filter_ext _ (fun property =>
               inRange (minSize, maxSize properties) (Property.total_sqft property)))
      by (intros p; now apply inRange_jeq).
    f_equal.
    apply List.filter_ext. intros p. now apply inRange_jeq.
Qed.

Lemma clear_filters_resets_witness :
  clearFilters [listingA; listingB] = freshFilters [listingA; listingB]
  /\ @filterProperties CodeUnitCollator [listingA; listingB] "depot"
       (handleSortChange "date_listed" (freshFilters [listingA; listingB]))
     = @filterProperties CodeUnitCollator [listingA; listingB] "depot"
         (clearFilters [listingA; listingB]).
Proof.
  destruct (@clear_filters_resets CodeUnitCollator [listingA; listingB])
    as (_ & Hfresh & Hsame).
  split; [apply Hfresh; discriminate |].
  apply Hsame. reflexivity.
Defined.

Lemma in_catalogue_within_prices (properties : list Property.t) (p : Property.t) :
  In p properties ->
  within (minPrice properties, maxPrice properties) (totalPrice p).
Proof.
  intros Hin. unfold within, minPrice, maxPrice. cbn [fst snd]. split.
  - apply Math_min_lower. apply (in_map (fun q => Num (totalPrice q))), Hin.
  - apply Math_max_upper. apply (in_map (fun q => Num (totalPrice q))), Hin.
Qed.

(** With the cleared criteria and an empty search box the result holds
    exactly the listings of the catalogue whose area is at least 600:
    whatever is smaller is hidden although no filter was chosen. *)
Theorem default_result_floor `{Collator} (properties : list Property.t) (p : Property.t) :
  In p (filterProperties properties "" (clearFilters properties))
  <-> In p properties /\ (600 <= Property.total_sqft p)%Q.
Proof.
  rewrite filterProperties_In. unfold passesAll, passesSearch, passesType,
    passesPrice, passesSize, passesLocation, passesAmenities. cbn.
  split.
  - intros [Hin (_ & _ & _ & [Hlo _] & _)]. split; assumption.
  - intros [Hin Hfloor]. split; [exact Hin |].
    split; [congruence |]. split; [congruence |].
    split; [now apply in_catalogue_within_prices |].
    split; [| split; congruence].
    split; [exact Hfloor |].
    apply (Math_max_upper _ (Num (Property.total_sqft p))).
    apply (in_map (fun q => Num (Property.total_sqft q))), Hin.
Qed.

Example small_listing_hidden :
  @filterProperties CodeUnitCollator [listingSmall; listingA] ""
    (freshFilters [listingSmall; listingA]) = [listingA].
Proof. vm_compute. reflexivity. Qed.

Lemma no_member_nil {A : Type} (l : list A) : (forall x, ~ In x l) -> l = [].
Proof.
  destruct l as [|x l]; [reflexivity |]. intros H. exfalso. apply (H x). now left.
Qed.

(** The sliders are not kept in order: when the lower bound of the price
    range or of the area range lies above the upper bound, no listing is
    left, whatever else is chosen; dragging the lower price handle above
    the upper bound does exactly that. *)
Theorem inverted_range_empties `{Collator} (properties : list Property.t) (term : string)
    (filters : FilterState) :
  (~ jle (fst (priceRange filters)) (snd (priceRange filters))
   \/ ~ jle (fst (sizeRange filters)) (snd (sizeRange filters)) ->
   filterProperties properties term filters = [])
  /\ (forall v hi,
        snd (priceRange filters) = Num hi -> (hi < v)%Q ->
        filterProperties properties term (handlePriceRangeChange 0 v filters) = [])
  /\ (forall v lo,
        fst (sizeRange filters) = Num lo -> (v < lo)%Q ->
        filterProperties properties term (handleSizeRangeChange 1 v filters) = []).
Proof.
  assert (Hgen : forall f,
             ~ jle (fst (priceRange f)) (snd (priceRange f))
             \/ ~ jle (fst (sizeRange f)) (snd (sizeRange f)) ->
             filterProperties properties term f = []).
  { intros f Hinv. apply no_member_nil. intros p Hin.
    apply filterProperties_In in Hin.
    destruct Hin as [_ (_ & _ & [Hp1 Hp2] & [Hs1 Hs2] & _)].
    destruct Hinv as [Hinv | Hinv]; apply Hinv; eapply jle_trans; eassumption. }
  split; [apply Hgen |]. split.
  - intros v hi Hhi Hlt. apply Hgen. left. cbn. rewrite Hhi. cbn. lra.
  - intros v lo Hlo Hlt. apply Hgen. right. cbn. rewrite Hlo. cbn. lra.
Qed.

Lemma inverted_range_empties_witness :
  @filterProperties CodeUnitCollator [listingA; listingB] ""
    (handlePriceRangeChange 0 30000%Q (freshFilters [listingA; listingB])) = [].
Proof.
  destruct (@inverted_range_empties CodeUnitCollator [listingA; listingB] ""
              (freshFilters [listingA; listingB])) as (_ & Hprice & _).
  apply (Hprice 30000%Q 25000%Q); reflexivity.
Defined.

Lemma In_not_nil {A : Type} (x : A) (l : list A) : In x l -> l <> [].
Proof. intros Hin ->. destruct Hin. Qed.

Lemma passesAll_amenity_added (norm : string -> string) (term : string)
    (filters : FilterState) (a : string) (p : Property.t) :
  ~ In a (selectedAmenities filters) ->
  passesAll norm term (handleAmenityToggle a filters) p ->
  passesAll norm term filters p /\ In a (Property.amenities p).
Proof.
  intros Hna (Hs & Ht & Hp & Hz & Hl & Ha).
  assert (Hina : In a (toggleMember a (selectedAmenities filters)))
    by (apply toggleMember_In; tauto).
  assert (Hall : forall b, In b (toggleMember a (selectedAmenities filters)) ->
                           In b (Property.amenities p))
    by (apply Ha; exact (In_not_nil _ _ Hina)).
  split; [| now apply Hall].
  refine (conj Hs (conj Ht (conj Hp (conj Hz (conj Hl _))))).
  intros _ b Hb. apply Hall, toggleMember_In. left.
  split; [intros ->; contradiction | exact Hb].
Qed.

Lemma passesAll_amenity_dropped (norm : string -> string) (term : string)
    (filters : FilterState) (a : string) (p : Property.t) :
  In a (selectedAmenities filters) ->
  passesAll norm term filters p ->
  passesAll norm term (handleAmenityToggle a filters) p.
Proof.
  intros Hina (Hs & Ht & Hp & Hz & Hl & Ha).
  refine (conj Hs (conj Ht (conj Hp (conj Hz (conj Hl _))))).
  intros _ b Hb. apply toggleMember_In in Hb.
  destruct Hb as [[_ Hb] | [_ Hb]]; [| contradiction].
  apply Ha; [exact (In_not_nil _ _ Hina) | exact Hb].
Qed.

Lemma passesAll_type_added (norm : string -> string) (term : string)
    (filters : FilterState) (t : string) (p : Property.t) :
  selectedTypes filters <> [] -> ~ In t (selectedTypes filters) ->
  passesAll norm term filters p ->
  passesAll norm term (handleTypeToggle t filters) p.
Proof.
  intros Hne Hnt (Hs & Ht & Hp & Hz & Hl & Ha).
  refine (conj Hs (conj _ (conj Hp (conj Hz (conj Hl Ha))))).
  intros _. apply toggleMember_In. left.
  assert (Hin : In (Property.type p) (selectedTypes filters)) by now apply Ht.
  split; [intros Heq; rewrite Heq in Hin; contradiction | exact Hin].
Qed.

(** Requiring one more amenity can only remove listings, and every listing
    that stays has it; dropping a required amenity can only add listings;
    so can ticking one more type once a type is ticked; and moving a price
    bound inwards can only remove listings. *)
Theorem narrowing_monotone `{Collator} (properties : list Property.t) (term : string)
    (filters : FilterState) (p : Property.t) :
  (forall a,
      ~ In a (selectedAmenities filters) ->
      In p (filterProperties properties term (handleAmenityToggle a filters)) ->
      In p (filterProperties properties term filters) /\ In a (Property.amenities p))
  /\ (forall a,
        In a (selectedAmenities filters) ->
        In p (filterProperties properties term filters) ->
        In p (filterProperties properties term (handleAmenityToggle a filters)))
  /\ (forall t,
        selectedTypes filters <> [] -> ~ In t (selectedTypes filters) ->
        In p (filterProperties properties term filters) ->
        In p (filterProperties properties term (handleTypeToggle t filters)))
  /\ (forall v,
        jle (fst (priceRange filters)) (Num v) ->
        In p (filterProperties properties term (handlePriceRangeChange 0 v filters)) ->
        In p (filterProperties properties term filters))
  /\ (forall v,
        jle (Num v) (snd (priceRange filters)) ->
        In p (filterProperties properties term (handlePriceRangeChange 1 v filters)) ->
        In p (filterProperties properties term filters)).
Proof.
  split; [| split; [| split; [| split]]].
  - intros a Hna Hin. apply filterProperties_In in Hin as [Hin Hpass].
    destruct (passesAll_amenity_added _ _ _ _ _ Hna Hpass) as [Hpass' Ha].
    split; [apply filterProperties_In; now split | exact Ha].
  - intros a Hina Hin. apply filterProperties_In in Hin as [Hin Hpass].
    apply filterProperties_In. split; [exact Hin |].
    now apply passesAll_amenity_dropped.
  - intros t Hne Hnt Hin. apply filterProperties_In in Hin as [Hin Hpass].
    apply filterProperties_In. split; [exact Hin |].
    now apply passesAll_type_added.
  - intros v Hv Hin. apply filterProperties_In in Hin as [Hin Hpass].
    apply filterProperties_In. split; [exact Hin |].
    destruct Hpass as (Hs & Ht & [Hp1 Hp2] & Hz & Hl & Ha).
    refine (conj Hs (conj Ht (conj (conj _ Hp2) (conj Hz (conj Hl Ha))))).
    cbn in Hp1. eapply jle_trans; [exact Hv | exact Hp1].
  - intros v Hv Hin. apply filterProperties_In in Hin as [Hin Hpass].
    apply filterProperties_In. split; [exact Hin |].
    destruct Hpass as (Hs & Ht & [Hp1 Hp2] & Hz & Hl & Ha).
    refine (conj Hs (conj Ht (conj (conj Hp1 _) (conj Hz (conj Hl Ha))))).
    apply (jle_trans _ (Num v)); [exact Hp2 | exact Hv].
Qed.

Lemma narrowing_monotone_witness :
  In listingA
    (@filterProperties CodeUnitCollator [listingA; listingB; listingC] ""
       (freshFilters [listingA; listingB; listingC]))
  /\ In "Elevator" (Property.amenities listingA).
Proof.
  destruct (@narrowing_monotone CodeUnitCollator [listingA; listingB; listingC] ""
              (freshFilters [listingA; listingB; listingC]) listingA)
    as (Hadd & _).
  apply (Hadd "Elevator").
  - intros [].
  - vm_compute. left. reflexivity.
Defined.

(** ** The shape of the result *)

Lemma stage_sublist (P : Property.t -> bool) (l : list Property.t) :
  List.filter P l `sublist_of` l.
Proof. apply filter_sublist. Qed.

Lemma narrow_sublist (properties : list Property.t) (term : string)
    (filters : FilterState) :
  narrow properties term filters `sublist_of` properties.
Proof.
  unfold narrow, amenitiesStage, locationStage, sizeStage, priceStage, typeStage,
    searchStage.
  repeat match goal with
         | |- context [match ?x with _ => _ end] => destruct x
         end;
    repeat (etransitivity; [apply stage_sublist |]); reflexivity.
Qed.

Lemma map_sublist {A B : Type} (f : A -> B) (l k : list A) :
  l `sublist_of` k -> map f l `sublist_of` map f k.
Proof. induction 1; cbn [map]; now constructor. Qed.

(** The result never has more listings than the catalogue, and when the
    identifiers of the catalogue are distinct so are those of the result,
    which are the keys the cards are rendered under. *)
Theorem result_within_catalogue `{Collator} (properties : list Property.t)
    (term : string) (filters : FilterState) :
  (length (filterProperties properties term filters) <= length properties)%nat
  /\ (NoDup (map Property.id properties) ->
      NoDup (map Property.id (filterProperties properties term filters))).
Proof.
  assert (Hperm : Permutation (filterProperties properties term filters)
                    (narrow properties term filters))
    by apply Array_sort_perm.
  split.
  - rewrite (Permutation_length Hperm). apply sublist_length, narrow_sublist.
  - intros Hnd. apply NoDup_ListNoDup. eapply Permutation_NoDup.
    + apply Permutation_map. symmetry. exact Hperm.
    + apply NoDup_ListNoDup.
      eapply sublist_NoDup; [exact Hnd | apply map_sublist, narrow_sublist].
Qed.

Lemma result_within_catalogue_witness :
  NoDup (map Property.id
           (@filterProperties CodeUnitCollator [listingA; listingB; listingC] "depot"
              (byTitle [listingA; listingB; listingC]))).
Proof.
  apply (@result_within_catalogue CodeUnitCollator).
  repeat constructor; set_solver.
Defined.

(** ** The order of the result *)

Section InsertionSorted.
Context {A : Type} (cmp : A -> A -> number) (R : A -> A -> Prop).
Hypothesis cmp_R : forall a b, Qle_bool (cmp a b) 0 = true <-> R a b.
Hypothesis R_total : forall a b, R a b \/ R b a.
Hypothesis R_trans : forall a b c, R a b -> R b c -> R a c.

Lemma sort_insert_Forall (P : A -> Prop) (x : A) (l : list A) :
  P x -> List.Forall P l -> List.Forall P (sort_insert cmp x l).
Proof.
  intros Px Hl. induction Hl as [|y l Py Hl IH]; cbn [sort_insert].
  - now constructor.
  - destruct (Qle_bool (cmp x y) 0); repeat constructor; assumption.
Qed.

Lemma sort_insert_sorted (x : A) (l : list A) :
  StronglySorted R l -> StronglySorted R (sort_insert cmp x l).
Proof.
  induction 1 as [|y l Hl IH Hy]; cbn [sort_insert].
  - repeat constructor.
  - destruct (Qle_bool (cmp x y) 0) eqn:E.
    + apply cmp_R in E. constructor; [now constructor |].
      constructor; [exact E |].
      eapply List.Forall_impl; [| exact Hy]. intros z Hz. now apply (R_trans x y z).
    + constructor; [exact IH |].
      apply sort_insert_Forall; [| exact Hy].
      destruct (R_total x y) as [Hxy | Hyx]; [| exact Hyx].
      apply cmp_R in Hxy. congruence.
Qed.

Lemma Array_sort_sorted (l : list A) : StronglySorted R (Array_sort cmp l).
Proof.
  induction l as [|x l IH]; cbn [Array_sort fold_right]; [constructor |].
  now apply sort_insert_sorted.
Qed.
End InsertionSorted.

Lemma Array_sort_ties {A : Type} (cmp : A -> A -> number) (l : list A) :
  (forall a b, (cmp a b == 0)%Q) -> Array_sort cmp l = l.
Proof.
  intros Hties. induction l as [|x l IH]; [reflexivity |].
  cbn [Array_sort fold_right]. fold (Array_sort cmp l). rewrite IH.
  destruct l as [|y l]; [reflexivity |]. cbn [sort_insert].
  assert (E : Qle_bool (cmp x y) 0 = true)
    by (apply Qle_bool_iff; rewrite Hties; apply Qle_refl).
  now rewrite E.
Qed.

Lemma inject_Z_nonpos (z : Z) : Qle_bool (inject_Z z) 0 = true <-> (z <= 0)%Z.
Proof.
  rewrite Qle_bool_iff. change 0%Q with (inject_Z 0). now rewrite <- Zle_Qle.
Qed.

(** The result is in the order the sort option names: newest or oldest
    first by listing date, ascending or descending by total price,
    descending or ascending by area; under an option the comparator does
    not know, the narrowed sequence keeps the order of the catalogue. *)
Theorem result_sorted `{Collator} (properties : list Property.t) (term : string)
    (filters : FilterState) :
  (sortBy filters = "date_listed" ->
   StronglySorted (fun a b => (Property.date_listed b <= Property.date_listed a)%Z)
     (filterProperties properties term filters))
  /\ (sortBy filters = "date_listed_old" ->
      StronglySorted (fun a b => (Property.date_listed a <= Property.date_listed b)%Z)
        (filterProperties properties term filters))
  /\ (sortBy filters = "price_low" ->
      StronglySorted (fun a b => (totalPrice a <= totalPrice b)%Q)
        (filterProperties properties term filters))
  /\ (sortBy filters = "price_high" ->
      StronglySorted (fun a b => (totalPrice b <= totalPrice a)%Q)
        (filterProperties properties term filters))
  /\ (sortBy filters = "size_large" ->
      StronglySorted (fun a b => (Property.total_sqft b <= Property.total_sqft a)%Q)
        (filterProperties properties term filters))
  /\ (sortBy filters = "size_small" ->
      StronglySorted (fun a b => (Property.total_sqft a <= Property.total_sqft b)%Q)
        (filterProperties properties term filters))
  /\ (~ In (sortBy filters)
          ["date_listed"; "date_listed_old"; "price_low"; "price_high";
           "size_large"; "size_small"; "title"] ->
      filterProperties properties term filters = narrow properties term filters).
Proof.
  unfold filterProperties.
  repeat match goal with |- _ /\ _ => split end; intros Hsort.
  - rewrite Hsort. apply Array_sort_sorted.
    + intros a b. cbn. rewrite inject_Z_nonpos. lia.
    + intros a b. lia.
    + intros a b c. lia.
  - rewrite Hsort. apply Array_sort_sorted.
    + intros a b. cbn. rewrite inject_Z_nonpos. lia.
    + intros a b. lia.
    + intros a b c. lia.
  - rewrite Hsort. apply Array_sort_sorted.
    + intros a b. cbn. rewrite Qle_bool_iff. split; intros; lra.
    + intros a b. destruct (Qlt_le_dec (totalPrice b) (totalPrice a)); [right; lra | now left].
    + intros a b c. lra.
  - rewrite Hsort. apply Array_sort_sorted.
    + intros a b. cbn. rewrite Qle_bool_iff. split; intros; lra.
    + intros a b. destruct (Qlt_le_dec (totalPrice b) (totalPrice a)); [left; lra | now right].
    + intros a b c. lra.
  - rewrite Hsort. apply Array_sort_sorted.
    + intros a b. cbn. rewrite Qle_bool_iff. split; intros; lra.
    + intros a b.
      destruct (Qlt_le_dec (Property.total_sqft b) (Property.total_sqft a));
        [left; lra | now right].
    + intros a b c. lra.
  - rewrite Hsort. apply Array_sort_sorted.
    + intros a b. cbn. rewrite Qle_bool_iff. split; intros; lra.
    + intros a b.
      destruct (Qlt_le_dec (Property.total_sqft b) (Property.total_sqft a));
        [right; lra | now left].
    + intros a b c. lra.
  - apply Array_sort_ties. intros a b. unfold compareFn.
    repeat match goal with
           | |- context [String.eqb ?s ?k] =>
               destruct (String.eqb_spec s k) as [Heq | _];
               [exfalso; apply Hsort; rewrite Heq; cbn; tauto |]
           end.
    reflexivity.
Qed.

Lemma result_sorted_witness :
  StronglySorted (fun a b => (totalPrice a <= totalPrice b)%Q)
    (@filterProperties CodeUnitCollator [listingB; listingA; listingC] ""
       (handleSortChange "price_low" (freshFilters [listingB; listingA; listingC]))).
Proof.
  apply (@result_sorted CodeUnitCollator). reflexivity.
Defined.

Example sorted_by_price :
  map Property.id
    (@filterProperties CodeUnitCollator [listingB; listingA; listingC] ""
       (handleSortChange "price_low" (freshFilters [listingB; listingA; listingC])))
  = ["a"; "b"; "c"].
Proof. vm_compute. reflexivity. Qed.

(** ** The dropdowns *)

Lemma uniq_In (x : string) (xs : list string) : In x (uniq xs) <-> In x xs.
Proof.
  induction xs as [|y xs IH]; [reflexivity |].
  cbn [uniq In]. rewrite filter_neq_In, IH.
  destruct (string_dec y x) as [-> | Hne]; [tauto |].
  split; [tauto |]. intros [Heq | Hin]; [tauto |]. right. split; [congruence | exact Hin].
Qed.

Lemma uniq_NoDup (xs : list string) : List.NoDup (uniq xs).
Proof.
  induction xs as [|y xs IH]; cbn [uniq]; constructor.
  - rewrite filter_neq_In. tauto.
  - now apply List.NoDup_filter.
Qed.

Lemma codeUnitCompare_le (a b : string) :
  Qle_bool (codeUnitCompare a b) 0 = true <-> String.compare a b <> Gt.
Proof.
  unfold codeUnitCompare. destruct (String.compare a b).
  - split; [intros _; discriminate | intros _; reflexivity].
  - split; [intros _; discriminate | intros _; reflexivity].
  - split; [intros Hle; vm_compute in Hle; discriminate | intros Hgt; congruence].
Qed.

Lemma compare_not_Gt (a b : string) :
  String.compare a b <> Gt <-> a = b \/ OrderedTypeEx.String_as_OT.lt a b.
Proof.
  rewrite <- OrderedTypeEx.String_as_OT.cmp_lt, <- OrderedTypeEx.String_as_OT.cmp_eq.
  unfold OrderedTypeEx.String_as_OT.cmp.
  destruct (String.compare a b); split; (congruence || tauto || intros [?|?]; congruence).
Qed.

Lemma compare_not_Gt_total (a b : string) :
  String.compare a b <> Gt \/ String.compare b a <> Gt.
Proof.
  rewrite (String.compare_antisym b a).
  destruct (String.compare a b); cbn; [left | left | right]; discriminate.
Qed.

Lemma compare_not_Gt_trans (a b c : string) :
  String.compare a b <> Gt -> String.compare b c <> Gt -> String.compare a c <> Gt.
Proof.
  rewrite !compare_not_Gt. intros [-> | Hab] [-> | Hbc]; auto.
  right. eapply OrderedTypeEx.String_as_OT.lt_trans; eassumption.
Qed.

Lemma sorted_strict (l : list string) :
  StronglySorted (fun a b => String.compare a b <> Gt) l -> List.NoDup l ->
  StronglySorted (fun a b => String.compare a b = Lt) l.
Proof.
  induction 1 as [|x l Hl IH Hx]; intros Hnd; constructor.
  - apply IH. now inversion Hnd.
  - inversion Hnd as [|? ? Hnotin _]; subst.
    rewrite List.Forall_forall in Hx |- *. intros y Hy.
    specialize (Hx y Hy). destruct (String.compare x y) eqn:E; try congruence.
    apply OrderedTypeEx.String_as_OT.cmp_eq in E. subst. contradiction.
Qed.

Lemma sortStrings_In (x : string) (xs : list string) : In x (sortStrings xs) <-> In x xs.
Proof.
  unfold sortStrings. split; apply Permutation_in; [| symmetry]; apply Array_sort_perm.
Qed.

Lemma sortStrings_uniq_strict (xs : list string) :
  StronglySorted (fun a b => String.compare a b = Lt) (sortStrings (uniq xs)).
Proof.
  apply sorted_strict.
  - unfold sortStrings. apply Array_sort_sorted.
    + apply codeUnitCompare_le.
    + apply compare_not_Gt_total.
    + apply compare_not_Gt_trans.
  - eapply Permutation_NoDup; [| apply uniq_NoDup].
    symmetry. apply Array_sort_perm.
Qed.

(** The location dropdown offers exactly the "city, state" strings borne
    by some listing of the catalogue and the amenities dropdown exactly the
    amenities some listing has, each once and in ascending code-unit
    order. *)
Theorem dropdown_options (properties : list Property.t) :
  (forall location,
      In location (allLocations properties) <->
      exists p, In p properties /\ locationOf p = location)
  /\ (forall amenity,
        In amenity (allAmenities properties) <->
        exists p, In p properties /\ In amenity (Property.amenities p))
  /\ StronglySorted (fun a b => String.compare a b = Lt) (allLocations properties)
  /\ StronglySorted (fun a b => String.compare a b = Lt) (allAmenities properties).
Proof.
  split; [| split; [| split]].
  - intros location. unfold allLocations.
    rewrite sortStrings_In, uniq_In, in_map_iff.
    split; intros [p [H1 H2]]; exists p; tauto.
  - intros amenity. unfold allAmenities.
    rewrite sortStrings_In, uniq_In, in_flat_map. reflexivity.
  - apply sortStrings_uniq_strict.
  - apply sortStrings_uniq_strict.
Qed.

Example dropdowns_of_samples :
  allLocations [listingB; listingA; listingC; listingD] = ["Austin, TX"; "Reno, NV"]
  /\ allAmenities [listingB; listingA; listingC; listingD] = ["Elevator"; "Parking"].
Proof. split; vm_compute; reflexivity. Qed.

(** Typing in the search box of a dropdown keeps the entries in which the
    typed text occurs, case ignored, in the order they had; an empty box
    keeps them all. *)
Theorem dropdown_search (entries : list string) (boxTerm : string) :
  (forall entry,
      In entry (matchingEntries entries boxTerm) <->
      In entry entries /\ isSubstring (toLowerCase boxTerm) (toLowerCase entry))
  /\ matchingEntries entries boxTerm `sublist_of` entries
  /\ matchingEntries entries "" = entries.
Proof.
  split; [| split].
  - intros entry. unfold matchingEntries. now rewrite filter_In, includes_spec.
  - apply filter_sublist.
  - unfold matchingEntries. induction entries as [|e entries IH]; [reflexivity |].
    cbn [List.filter]. rewrite IH.
    assert (E : includes (toLowerCase e) (toLowerCase "") = true)
      by (apply includes_spec; exists "", (toLowerCase e); reflexivity).
    now rewrite E.
Qed.

(** ** The selection, once more *)

(** Selecting a listing that was not selected and deselecting it again
    gives back the selection as it was, provided there was room for it;
    deselecting a selected listing and selecting it again gives it back
    too; and repeating a tick or an untick changes nothing more. *)
Theorem select_round_trip (id : string) (prev : gset string) :
  (id ∉ prev -> (size prev < 4)%nat ->
   toggleSelect id false (toggleSelect id true prev) = prev)
  /\ (id ∈ prev -> (size prev <= 4)%nat ->
      toggleSelect id true (toggleSelect id false prev) = prev)
  /\ toggleSelect id true (toggleSelect id true prev) = toggleSelect id true prev
  /\ toggleSelect id false (toggleSelect id false prev) = toggleSelect id false prev.
Proof.
  split; [| split; [| split]].
  - intros Hfresh Hroom. unfold toggleSelect.
    destruct (4 <=? size prev)%nat eqn:E; [apply Nat.leb_le in E; lia |].
    set_solver.
  - intros Hin Hsize. unfold toggleSelect.
    assert (Hless : (size (prev ∖ {[id]}) < 4)%nat).
    { rewrite size_difference by set_solver. rewrite size_singleton.
      assert (size prev <> 0)%nat by (apply size_non_empty_iff; set_solver). lia. }
    destruct (4 <=? size (prev ∖ {[id]}))%nat eqn:E; [apply Nat.leb_le in E; lia |].
    symmetry. now apply union_difference_singleton_L.
  - unfold toggleSelect. destruct (4 <=? size prev)%nat eqn:E; [now rewrite E |].
    destruct (4 <=? size ({[id]} ∪ prev))%nat; [reflexivity | set_solver].
  - unfold toggleSelect. set_solver.
Qed.

Lemma select_round_trip_witness :
  toggleSelect "c" false (toggleSelect "c" true {[ "a"; "b" ]})
  = ({[ "a"; "b" ]} : gset string)
  /\ toggleSelect "a" true (toggleSelect "a" false {[ "a"; "b" ]})
     = ({[ "a"; "b" ]} : gset string).
Proof.
  destruct (select_round_trip "c" {[ "a"; "b" ]}) as (Hon & _).
  destruct (select_round_trip "a" {[ "a"; "b" ]}) as (_ & Hoff & _).
  split.
  - apply Hon; [set_solver | vm_compute; lia].
  - apply Hoff; [set_solver | vm_compute; lia].
Defined.

Lemma filter_andb {A : Type} (f g : A -> bool) (l : list A) :
  List.filter (fun x => f x && g x) l = List.filter g (List.filter f l).
Proof.
  induction l as [|x l IH]; [reflexivity |].
  cbn [List.filter]. destruct (f x); cbn [andb List.filter]; now rewrite IH.
Qed.

(** "Remove" in the compare modal deselects the listing and nothing else:
    what the modal is given next is the filtered, selected listings
    without those of that identifier, cut after 4; when no more than 4
    were selected in the filtered sequence, it is the previous comparison
    without them, the rest in the order they had. *)
Theorem remove_from_comparison (id : string) (s : GridState) :
  selectedIds (onRemove id s) = selectedIds s ∖ {[ id ]}
  /\ filteredProperties (onRemove id s) = filteredProperties s
  /\ visibleProperties (onRemove id s) = visibleProperties s
  /\ compareProperties (onRemove id s)
     = firstn 4
         (List.filter (fun p => negb (String.eqb (Property.id p) id))
            (List.filter (fun p => bool_decide (Property.id p ∈ selectedIds s))
               (filteredProperties s)))
  /\ (forall p, In p (compareProperties (onRemove id s)) -> Property.id p <> id)
  /\ ((length (List.filter (fun p => bool_decide (Property.id p ∈ selectedIds s))
                 (filteredProperties s)) <= 4)%nat ->
      compareProperties (onRemove id s)
      = List.filter (fun p => negb (String.eqb (Property.id p) id)) (compareProperties s)).
Proof.
  assert (Hcmp : compareProperties (onRemove id s)
                 = firstn 4
                     (List.filter (fun p => negb (String.eqb (Property.id p) id))
                        (List.filter (fun p => bool_decide (Property.id p ∈ selectedIds s))
                           (filteredProperties s)))).
  { unfold compareProperties, onRemove, onToggleSelect, toggleSelect.
    cbn [selectedIds filteredProperties]. rewrite <- filter_andb. f_equal.
    apply List.filter_ext. intros p. apply eq_true_iff_eq.
    rewrite andb_true_iff, negb_true_iff, String.eqb_neq, !bool_decide_eq_true.
    set_solver. }
  split; [reflexivity |]. split; [reflexivity |]. split; [reflexivity |].
  split; [exact Hcmp |]. split.
  - intros p Hin. rewrite Hcmp in Hin.
    apply list_elem_of_In, elem_of_take in Hin as (k & Hk & _).
    apply list_elem_of_lookup_2, list_elem_of_In, filter_In in Hk as [_ Hk].
    now apply negb_true_iff, String.eqb_neq in Hk.
  - intros Hfew. rewrite Hcmp. unfold compareProperties.
    rewrite (take_ge (List.filter _ (filteredProperties s))) by exact Hfew.
    apply take_ge. etransitivity; [| exact Hfew].
    apply sublist_length, filter_sublist.
Qed.

Lemma remove_from_comparison_witness :
  compareProperties (onRemove "a" bothSelected) = [listingB].
Proof.
  destruct (remove_from_comparison "a" bothSelected) as (_ & _ & _ & _ & _ & Hfew).
  rewrite Hfew; [reflexivity | vm_compute; lia].
Defined.

(** ** Loading more *)

(** In every state the grid can reach the loading flag is up exactly
    while a timer is pending; so a trigger never replaces a pending timer
    and a timer never fires into a state that is not loading. *)
Theorem loading_iff_timer_pending (properties : list Property.t) (s : GridState) :
  reachable properties s -> (isLoadingMore s = true <-> pendingTimer s <> None).
Proof.
  induction 1 as [|s e Hs IH].
  - cbn. split; [discriminate | congruence].
  - destruct e; cbn; try exact IH.
    + unfold loadMoreProperties.
      destruct (isLoadingMore s || negb (hasMore s)); [exact IH |].
      cbn. split; [discriminate | reflexivity].
    + unfold timerFired. destruct (pendingTimer s) eqn:E; [| rewrite E; exact IH].
      cbn. split; [discriminate | congruence].
Qed.

Lemma loading_iff_timer_pending_witness :
  isLoadingMore (run (mounted 20) [LoadMore; FilteredChanged (catalogue 3)]) = true
  <-> pendingTimer (run (mounted 20) [LoadMore; FilteredChanged (catalogue 3)]) <> None.
Proof.
  apply (loading_iff_timer_pending (catalogue 20)).
  unfold mounted. repeat apply reachable_run. constructor.
Defined.

(** The timer is not cancelled when the filtered sequence is replaced
    during the delay: it then adds 8 to the count that was just reset,
    giving 16, and sets [hasMore] from the length the sequence had when the
    load was triggered.  If that length is at most 16 and the new sequence
    is longer, [hasMore] is down although listings remain hidden, 16 are
    shown and the sentinel loads no more. *)
Theorem filter_change_while_loading (s : GridState) (filtered : list Property.t) :
  isLoadingMore s = false -> hasMore s = true ->
  filteredProperties (timerFired (setFilteredProperties filtered (loadMoreProperties s)))
  = filtered
  /\ visibleCount (timerFired (setFilteredProperties filtered (loadMoreProperties s)))
     = 16%nat
  /\ hasMore (timerFired (setFilteredProperties filtered (loadMoreProperties s)))
     = (16 <? length (filteredProperties s))%nat
  /\ isLoadingMore (timerFired (setFilteredProperties filtered (loadMoreProperties s)))
     = false
  /\ ((length (filteredProperties s) <= 16)%nat -> (16 < length filtered)%nat ->
      length (visibleProperties
                (timerFired (setFilteredProperties filtered (loadMoreProperties s))))
      = 16%nat
      /\ (forall n,
            loadCycles n
              (timerFired (setFilteredProperties filtered (loadMoreProperties s)))
            = timerFired (setFilteredProperties filtered (loadMoreProperties s)))).
Proof.
  intros Hload Hmore.
  assert (Hs' : timerFired (setFilteredProperties filtered (loadMoreProperties s))
                = {| filteredProperties := filtered;
                     selectedIds := selectedIds s;
                     visibleCount := 16;
                     isLoadingMore := false;
                     hasMore := (16 <? length (filteredProperties s))%nat;
                     pendingTimer := None |}).
  { unfold loadMoreProperties. now rewrite Hload, Hmore. }
  rewrite Hs'. cbn [filteredProperties visibleCount hasMore isLoadingMore].
  do 4 (split; [reflexivity |]).
  intros Hold Hnew.
  assert (E : (16 <? length (filteredProperties s))%nat = false)
    by (apply Nat.ltb_ge; lia).
  rewrite E. split.
  - rewrite visibleProperties_length. cbn [visibleCount filteredProperties]. lia.
  - intros n. induction n as [|n IH]; [reflexivity |].
    cbn [loadCycles]. exact IH.
Qed.

Lemma filter_change_while_loading_witness :
  length (filteredProperties
            (run (mounted 12) [LoadMore; FilteredChanged (catalogue 30); TimerFired]))
  = 30%nat
  /\ length (visibleProperties
               (run (mounted 12) [LoadMore; FilteredChanged (catalogue 30); TimerFired]))
     = 16%nat
  /\ hasMore (run (mounted 12) [LoadMore; FilteredChanged (catalogue 30); TimerFired])
     = false.
Proof.
  destruct (filter_change_while_loading (mounted 12) (catalogue 30) eq_refl eq_refl)
    as (Hf & _ & Hm & _ & Hstuck).
  split; [cbn [run fold_left step]; rewrite Hf; reflexivity |].
  split; [apply Hstuck; vm_compute; lia |].
  cbn [run fold_left step]. rewrite Hm. reflexivity.
Defined.

Lemma loadCycle_settled (s : GridState) :
  isLoadingMore s = false -> pendingTimer s = None ->
  hasMore s = (visibleCount s <? length (filteredProperties s))%nat ->
  loadCycle s
  = if (visibleCount s <? length (filteredProperties s))%nat
    then {| filteredProperties := filteredProperties s;
            selectedIds := selectedIds s;
            visibleCount := visibleCount s + 8;
            isLoadingMore := false;
            hasMore := (visibleCount s + 8 <? length (filteredProperties s))%nat;
            pendingTimer := None |}
    else s.
Proof.
  intros Hload Hpending Hmore. unfold loadCycle, onIntersect, loadMoreProperties.
  rewrite Hload, Hmore.
  destruct (visibleCount s <? length (filteredProperties s))%nat; cbn.
  - reflexivity.
  - unfold timerFired. now rewrite Hpending.
Qed.

Lemma loadCycles_reveal (n : nat) (s : GridState) :
  isLoadingMore s = false -> pendingTimer s = None ->
  hasMore s = (visibleCount s <? length (filteredProperties s))%nat ->
  (length (filteredProperties s) <= visibleCount s + 8 * n)%nat ->
  filteredProperties (loadCycles n s) = filteredProperties s
  /\ selectedIds (loadCycles n s) = selectedIds s
  /\ isLoadingMore (loadCycles n s) = false
  /\ pendingTimer (loadCycles n s) = None
  /\ hasMore (loadCycles n s) = false
  /\ (length (filteredProperties s) <= visibleCount (loadCycles n s))%nat.
Proof.
  revert s. induction n as [|n IH]; intros s Hload Hpending Hmore Hlen.
  - cbn [loadCycles]. repeat split; try assumption; [| lia].
    rewrite Hmore. apply Nat.ltb_ge. lia.
  - cbn [loadCycles]. rewrite (loadCycle_settled s Hload Hpending Hmore).
    destruct (visibleCount s <? length (filteredProperties s))%nat eqn:E.
    + match goal with
      | |- context [loadCycles n ?s1] =>
          destruct (IH s1) as (H1 & H2 & H3 & H4 & H5 & H6);
          [reflexivity | reflexivity | reflexivity
          | cbn [filteredProperties visibleCount]; lia |]
      end.
      cbn in H1, H2, H6. repeat split; assumption.
    + apply Nat.ltb_ge in E.
      apply IH; [assumption | assumption | | lia].
      rewrite Hmore. symmetry. now apply Nat.ltb_ge.
Qed.

(** Starting from a grid that is not loading, enough rounds of reaching
    the sentinel and waiting for the timer reveal the whole filtered
    sequence, one page of 8 per round: after [n] rounds with
    count + 8 n at least the length, every listing is visible, [hasMore]
    is down, the selection is untouched and a further round changes
    nothing. *)
Theorem scrolling_reveals_all (n : nat) (s : GridState) :
  isLoadingMore s = false -> pendingTimer s = None ->
  hasMore s = (visibleCount s <? length (filteredProperties s))%nat ->
  (length (filteredProperties s) <= visibleCount s + 8 * n)%nat ->
  visibleProperties (loadCycles n s) = filteredProperties s
  /\ hasMore (loadCycles n s) = false
  /\ selectedIds (loadCycles n s) = selectedIds s
  /\ loadCycle (loadCycles n s) = loadCycles n s.
Proof.
  intros Hload Hpending Hmore Hlen.
  destruct (loadCycles_reveal n s Hload Hpending Hmore Hlen)
    as (Hf & Hsel & Hl & Hp & Hm & Hc).
  split; [| split; [exact Hm | split; [exact Hsel |]]].
  - unfold visibleProperties. rewrite Hf. apply take_ge. exact Hc.
  - rewrite loadCycle_settled; try assumption.
    + rewrite Hf. assert (E : (visibleCount (loadCycles n s)
                               <? length (filteredProperties s))%nat = false)
        by (apply Nat.ltb_ge; exact Hc).
      now rewrite E.
    + rewrite Hm, Hf. symmetry. apply Nat.ltb_ge. exact Hc.
Qed.

Lemma scrolling_reveals_all_witness :
  visibleProperties (loadCycles 2 (mounted 20)) = catalogue 20
  /\ hasMore (loadCycles 2 (mounted 20)) = false.
Proof.
  destruct (scrolling_reveals_all 2 (mounted 20)) as (Hall & Hmore & _);
    try reflexivity.
  - vm_compute. lia.
  - split; [exact Hall | exact Hmore].
Defined.

(** ** The stats row *)

(** The figures for offices, warehouses and retail spaces add up to the
    total only when every filtered listing is of one of these three
    types: the total is their sum plus the number of listings of any other
    type, industrial ones among them. *)
Theorem stats_row (s : GridState) :
  length (filteredProperties s)
  = (countOfType "office" s + countOfType "warehouse" s + countOfType "retail" s
     + length (List.filter otherType (filteredProperties s)))%nat
  /\ (countOfType "industrial" s <= length (List.filter otherType (filteredProperties s)))%nat.
Proof.
  unfold countOfType. generalize (filteredProperties s) as l.
  induction l as [|p l [IH1 IH2]]; [split; reflexivity |].
  cbn [List.filter length].
  change (otherType p)
    with (negb (String.eqb (Property.type p) "office")
          && negb (String.eqb (Property.type p) "warehouse")
          && negb (String.eqb (Property.type p) "retail")).
  destruct (String.eqb_spec (Property.type p) "office") as [E1 | E1];
    destruct (String.eqb_spec (Property.type p) "warehouse") as [E2 | E2];
    destruct (String.eqb_spec (Property.type p) "retail") as [E3 | E3];
    destruct (String.eqb_spec (Property.type p) "industrial") as [E4 | E4];
    try (rewrite E1 in *; discriminate);
    try (rewrite E2 in *; discriminate);
    try (rewrite E3 in *; discriminate);
    cbn [negb andb length]; split; lia.
Qed.

Example stats_of_samples :
  let s := setFilteredProperties
             [listingA; listingB; listingC; listingD; numbered "x"]
             (initialGrid []) in
  (length (filteredProperties s), countOfType "office" s, countOfType "warehouse" s,
   countOfType "retail" s) = (5, 2, 2, 1)%nat.
Proof. reflexivity. Qed.

(** ** Winners of a comparison *)

Lemma Math_min_finite (xs : list jsnum) (v : number) :
  In (Num v) xs -> In (Math_min xs) xs /\ Math_min xs <> PosInfinity.
Proof.
  intros Hin. pose proof (Math_min_lower xs (Num v) Hin) as Hl.
  destruct (Math_min_attained xs) as [Hinf | Hatt].
  - rewrite Hinf in Hl. destruct Hl.
  - split; [exact Hatt |]. intros Hinf. rewrite Hinf in Hl. destruct Hl.
Qed.

Lemma Math_max_finite (xs : list jsnum) (v : number) :
  In (Num v) xs -> In (Math_max xs) xs.
Proof.
  intros Hin. pose proof (Math_max_upper xs (Num v) Hin) as Hl.
  destruct (Math_max_attained xs) as [Hinf | Hatt]; [| exact Hatt].
  rewrite Hinf in Hl. destruct Hl.
Qed.

Lemma age_Some_iff (currentYear : number) (p : Property.t) :
  age currentYear p <> None <->
  exists y, Property.year_built p = Some y /\ ~ (y == 0)%Q.
Proof.
  unfold age. destruct (Property.year_built p) as [y|].
  - destruct (Qeq_bool y 0) eqn:E.
    + apply Qeq_bool_iff in E. split; [congruence |].
      intros [y' [Hy Hne]]. injection Hy as <-. contradiction.
    + split; [| discriminate]. intros _. exists y. split; [reflexivity |].
      intros Heq. apply Qeq_bool_iff in Heq. congruence.
  - split; [congruence | intros [y [Hy _]]; discriminate].
Qed.

(** Whenever the compare modal is given at least one listing, some
    listing is marked best for price and some for size; some listing is
    marked newest exactly when some listing has a year built other than 0,
    a year of 0 counting as none. *)
Theorem comparison_has_winners (currentYear : number) (properties : list Property.t) :
  properties <> [] ->
  (exists p, In p properties /\ isPriceBest properties p = true)
  /\ (exists p, In p properties /\ isSizeBest properties p = true)
  /\ ((exists p, In p properties /\ isAgeBest currentYear properties p = true)
      <-> exists p, In p properties
                    /\ exists y, Property.year_built p = Some y /\ ~ (y == 0)%Q).
Proof.
  intros Hne. destruct properties as [|p0 ps] eqn:Eps; [congruence |].
  rewrite <- Eps. assert (Hp0 : In p0 properties) by (rewrite Eps; now left).
  clear Eps Hne. split; [| split].
  - destruct (Math_min_finite (map (fun p => Num (totalPrice p)) properties)
                (totalPrice p0)) as [Hatt _].
    { apply (in_map (fun p => Num (totalPrice p))), Hp0. }
    apply in_map_iff in Hatt. destruct Hatt as [q [Hq Hin]].
    exists q. split; [exact Hin |]. unfold isPriceBest, bestPrice.
    rewrite <- Hq. apply jeq_bool_refl.
  - pose proof (Math_max_finite (map (fun p => Num (Property.total_sqft p)) properties)
                  (Property.total_sqft p0)) as Hatt.
    apply in_map_iff in Hatt.
    + destruct Hatt as [q [Hq Hin]].
      exists q. split; [exact Hin |]. unfold isSizeBest, bestSize.
      rewrite <- Hq. apply jeq_bool_refl.
    + apply (in_map (fun p => Num (Property.total_sqft p))), Hp0.
  - split.
    + intros [p [Hin Hbest]]. exists p. split; [exact Hin |].
      apply (age_Some_iff currentYear). unfold isAgeBest in Hbest.
      destruct (age currentYear p); [discriminate | discriminate Hbest].
    + intros [p [Hin Hy]]. apply (age_Some_iff currentYear) in Hy.
      destruct (age currentYear p) as [a|] eqn:Ea; [| congruence].
      destruct (Math_min_finite (map (ageOrInfinity currentYear) properties) a)
        as [Hatt Hfin].
      { apply in_map_iff. exists p. split; [| exact Hin].
        unfold ageOrInfinity. now rewrite Ea. }
      apply in_map_iff in Hatt. destruct Hatt as [q [Hq Hinq]].
      exists q. split; [exact Hinq |].
      destruct (age currentYear q) as [b|] eqn:Eb.
      * unfold isAgeBest, bestAge. rewrite Eb, <- Hq.
        unfold ageOrInfinity. rewrite Eb. apply jeq_bool_refl.
      * exfalso. apply Hfin. rewrite <- Hq. unfold ageOrInfinity. now rewrite Eb.
Qed.

Lemma comparison_has_winners_witness :
  (exists p, In p [listingSmall; listingC] /\ isPriceBest [listingSmall; listingC] p = true)
  /\ ~ exists p, In p [listingSmall; listingC]
                 /\ isAgeBest 2025%Q [listingSmall; listingC] p = true.
Proof.
  assert (Hne : [listingSmall; listingC] <> []) by discriminate.
  destruct (comparison_has_winners 2025%Q [listingSmall; listingC] Hne)
    as (Hprice & _ & Hage).
  split; [exact Hprice |].
  intros Hbest. apply Hage in Hbest.
  destruct Hbest as [p [[<- | [<- | []]] [y [Hy Hnz]]]]; cbn in Hy.
  - injection Hy as <-. apply Hnz. reflexivity.
  - discriminate.
Defined.

(** ** What a card and the modal show of a list *)


Example previews_of_five :
  amenityPreview ["a"; "b"; "c"; "d"; "e"] = Some (["a"; "b"; "c"], Some 2%nat)
  /\ moreImages ["a"; "b"; "c"; "d"; "e"] = Some (["b"; "c"; "d"], Some 1%nat)
  /\ amenityPreview [] = None
  /\ moreImages ["a"] = None.
Proof. repeat split. Qed.

(** ** vite.config.ts *)

Lemma react_dom_has_react (id : string) :
  includes id "react-dom" = true -> includes id "react" = true.
Proof.
  rewrite !includes_spec. intros [pre [post ->]].
  exists pre, ("-dom" ++ post). reflexivity.
Qed.

(** A module under node_modules always goes to a vendor chunk, to
    react-vendor exactly when "react" occurs in its id, so the test for
    "react-dom" never decides anything; and a module reaches the components
    chunk only if it is under src/components/ and none of the earlier rules
    (node_modules, the two modals, properties.json) applies. *)
Theorem chunk_precedence (id : string) :
  (includes id "react" || includes id "react-dom") = includes id "react"
  /\ (isSubstring "node_modules" id ->
      (manualChunks id = Some "react-vendor" <-> isSubstring "react" id)
      /\ (manualChunks id = Some "vendor" <-> ~ isSubstring "react" id))
  /\ (manualChunks id = Some "components" <->
      isSubstring "src/components/" id
      /\ ~ isSubstring "node_modules" id
      /\ ~ isSubstring "PropertyModal" id
      /\ ~ isSubstring "CompareModal" id
      /\ ~ isSubstring "properties.json" id).
Proof.
  assert (Hred : (includes id "react" || includes id "react-dom") = includes id "react").
  { destruct (includes id "react") eqn:E; [reflexivity |].
    destruct (includes id "react-dom") eqn:E'; [| reflexivity].
    apply react_dom_has_react in E'. congruence. }
  split; [exact Hred |]. unfold manualChunks. rewrite Hred.
  rewrite <- !includes_spec. split.
  - intros Hnm. rewrite Hnm.
    destruct (includes id "react"); split; split; congruence.
  - destruct (includes id "node_modules").
    { destruct (includes id "react"); split; [discriminate | intros (_ & H & _); congruence
                                              | discriminate | intros (_ & H & _); congruence]. }
    destruct (includes id "PropertyModal"); cbn [orb].
    { split; [discriminate | intros (_ & _ & H & _); congruence]. }
    destruct (includes id "CompareModal"); cbn [orb].
    { split; [discriminate | intros (_ & _ & _ & H & _); congruence]. }
    destruct (includes id "properties.json").
    { split; [discriminate | intros (_ & _ & _ & _ & H); congruence]. }
    destruct (includes id "src/components/").
    + split; [intros _; repeat split; congruence | reflexivity].
    + split; [discriminate | intros (H & _); congruence].
Qed.

Lemma chunk_precedence_witness :
  manualChunks "/app/node_modules/react-dom/index.js" = Some "react-vendor"
  <-> isSubstring "react" "/app/node_modules/react-dom/index.js".
Proof.
  apply (chunk_precedence "/app/node_modules/react-dom/index.js").
  apply includes_spec. reflexivity.
Defined.

Example chunks_of_samples :
  manualChunks "/app/node_modules/preact/dist/preact.js" = Some "react-vendor"
  /\ manualChunks "/app/src/components/PropertyModal.tsx" = Some "modal-components"
  /\ manualChunks "/app/src/components/PropertyGrid.tsx" = Some "components"
  /\ manualChunks "/app/src/main.tsx" = None.
Proof. repeat split. Qed.

(** ** PropertyImage.tsx: the fallback chain *)

Lemma nth_error_firstn_In {A : Type} (l : list A) (k n : nat) (x : A) :
  (k < n)%nat -> nth_error l k = Some x -> In x (firstn n l).
Proof.
  revert k n. induction l as [|y l IH]; intros k n Hk Hx.
  - destruct k; discriminate.
  - destruct n as [|n]; [lia |]. destruct k as [|k]; cbn in Hx |- *.
    + left. congruence.
    + right. apply (IH k); [lia | exact Hx].
Qed.

(** The sources an image may ever be asked to show. *)
Lemma image_step_allowed (propertyType : string) (allowed : list string)
    (s : PropertyImage.State) (e : PropertyImage.Event) :
  (forall x, In x (firstn 3 (PropertyImage.getFallbackImages propertyType)) -> In x allowed) ->
  In (PropertyImage.getDefaultImage propertyType) allowed ->
  (PropertyImage.retryCount s <= 3)%nat /\ In (PropertyImage.imageSrc s) allowed ->
  (PropertyImage.retryCount (PropertyImage.react propertyType s e) <= 3)%nat
  /\ In (PropertyImage.imageSrc (PropertyImage.react propertyType s e)) allowed.
Proof.
  intros Hfb Hdef [Hrc Hsrc]. destruct e; cbn [PropertyImage.react].
  - split; assumption.
  - unfold PropertyImage.handleImageError.
    assert (Hd : (PropertyImage.retryCount (PropertyImage.useDefault propertyType s) <= 3)%nat
                 /\ In (PropertyImage.imageSrc (PropertyImage.useDefault propertyType s))
                      allowed).
    { unfold PropertyImage.useDefault.
      destruct (negb (PropertyImage.isDefaultImage s)); cbn; split; assumption. }
    destruct (PropertyImage.retryCount s <? 3)%nat eqn:E; [| exact Hd].
    apply Nat.ltb_lt in E.
    destruct (nth_error _ _) as [next|] eqn:En; [| exact Hd].
    destruct (String.eqb next ""); [exact Hd |]. cbn. split; [lia |].
    apply Hfb. now apply (nth_error_firstn_In _ (PropertyImage.retryCount s)).
Qed.

(** Whatever loads and fails, in whatever order, the image shown is the
    source it was given, one of the first three fallbacks of its type or
    the default image of its type, and no more than three fallbacks are
    ever tried: the fourth office fallback is never reached. *)
Theorem image_sources (src : option string) (propertyType : string)
    (es : list PropertyImage.Event) :
  (PropertyImage.retryCount (PropertyImage.after src propertyType es) <= 3)%nat
  /\ In (PropertyImage.imageSrc (PropertyImage.after src propertyType es))
       (PropertyImage.imageSrc (PropertyImage.initial src propertyType)
        :: PropertyImage.getDefaultImage propertyType
        :: firstn 3 (PropertyImage.getFallbackImages propertyType)).
Proof.
  unfold PropertyImage.after.
  set (allowed := PropertyImage.imageSrc (PropertyImage.initial src propertyType)
                  :: PropertyImage.getDefaultImage propertyType
                  :: firstn 3 (PropertyImage.getFallbackImages propertyType)).
  assert (Hinit : (PropertyImage.retryCount (PropertyImage.initial src propertyType) <= 3)%nat
                  /\ In (PropertyImage.imageSrc (PropertyImage.initial src propertyType))
                       allowed)
    by (split; [cbn; lia | now left]).
  revert Hinit. generalize (PropertyImage.initial src propertyType) as s.
  induction es as [|e es IH]; intros s Hs; [exact Hs |].
  cbn [fold_left]. apply IH. apply image_step_allowed.
  - intros x Hx. right. now right.
  - right. now left.
  - exact Hs.
Qed.

Example office_chain :
  map PropertyImage.imageSrc
    (map (PropertyImage.after (Some "tower.jpg") "office")
       [[]; [PropertyImage.Failed];
        [PropertyImage.Failed; PropertyImage.Failed];
        [PropertyImage.Failed; PropertyImage.Failed; PropertyImage.Failed];
        [PropertyImage.Failed; PropertyImage.Failed; PropertyImage.Failed;
         PropertyImage.Failed]])
  = ["tower.jpg";
     PropertyImage.photo "-1497366216548-28220-16351";
     PropertyImage.photo "-1545324418-cc1a3fa10c00";
     PropertyImage.photo "-1560264280-88b68371db39";
     PropertyImage.photo "-1497366216548-28220-16351"].
Proof. vm_compute. reflexivity. Qed.

Lemma useDefault_twice (propertyType : string) (s : PropertyImage.State) :
  let s2 := PropertyImage.useDefault propertyType
              (PropertyImage.useDefault propertyType s) in
  PropertyImage.useDefault propertyType s2 = s2
  /\ PropertyImage.placeholderShown s2 = true
  /\ PropertyImage.isLoading s2 = false.
Proof.
  destruct s as [src ld he rc isd]. unfold PropertyImage.useDefault.
  destruct isd; cbn; repeat split.
Qed.

Lemma handleImageError_cases (propertyType : string) (s : PropertyImage.State) :
  PropertyImage.handleImageError propertyType s
  = if PropertyImage.willRetry propertyType s
    then PropertyImage.handleImageError propertyType s
    else PropertyImage.useDefault propertyType s.
Proof.
  unfold PropertyImage.willRetry, PropertyImage.handleImageError.
  destruct (PropertyImage.retryCount s <? 3)%nat; [| reflexivity].
  destruct (nth_error _ _) as [next|]; [| reflexivity].
  now destruct (String.eqb next "").
Qed.

Lemma willRetry_step (propertyType : string) (s : PropertyImage.State) :
  PropertyImage.willRetry propertyType s = true ->
  (PropertyImage.retryCount s < 3)%nat
  /\ PropertyImage.retryCount (PropertyImage.handleImageError propertyType s)
     = S (PropertyImage.retryCount s).
Proof.
  unfold PropertyImage.willRetry, PropertyImage.handleImageError.
  destruct (PropertyImage.retryCount s <? 3)%nat eqn:E; [| discriminate].
  apply Nat.ltb_lt in E.
  destruct (nth_error _ _) as [next|]; [| discriminate].
  destruct (String.eqb next ""); [discriminate |]. intros _. split; [exact E | reflexivity].
Qed.

Lemma willRetry_useDefault (propertyType : string) (s : PropertyImage.State) :
  PropertyImage.willRetry propertyType (PropertyImage.useDefault propertyType s)
  = PropertyImage.willRetry propertyType s.
Proof.
  unfold PropertyImage.willRetry, PropertyImage.useDefault.
  now destruct (negb (PropertyImage.isDefaultImage s)).
Qed.

Lemma fails_without_retry (propertyType : string) (n : nat) (s : PropertyImage.State) :
  PropertyImage.willRetry propertyType s = false ->
  Nat.iter (S (S n)) (PropertyImage.handleImageError propertyType) s
  = PropertyImage.useDefault propertyType (PropertyImage.useDefault propertyType s).
Proof.
  intros Hno.
  assert (Hstep : forall x, PropertyImage.willRetry propertyType x = false ->
                    PropertyImage.handleImageError propertyType x
                    = PropertyImage.useDefault propertyType x).
  { intros x Hx. rewrite handleImageError_cases. now rewrite Hx. }
  assert (Hno2 : PropertyImage.willRetry propertyType
                   (PropertyImage.useDefault propertyType
                      (PropertyImage.useDefault propertyType s)) = false)
    by now rewrite !willRetry_useDefault.
  induction n as [|n IH].
  - cbn [Nat.iter nat_rect]. rewrite (Hstep s Hno).
    apply Hstep. now rewrite willRetry_useDefault.
  - change (Nat.iter (S (S (S n))) (PropertyImage.handleImageError propertyType) s)
      with (PropertyImage.handleImageError propertyType
              (Nat.iter (S (S n)) (PropertyImage.handleImageError propertyType) s)).
    rewrite IH. rewrite (Hstep _ Hno2). apply useDefault_twice.
Qed.

Lemma fails_settle (propertyType : string) (m n : nat) (s : PropertyImage.State) :
  (3 - PropertyImage.retryCount s <= m)%nat ->
  exists s0,
    PropertyImage.willRetry propertyType s0 = false
    /\ Nat.iter (m + S (S n)) (PropertyImage.handleImageError propertyType) s
       = PropertyImage.useDefault propertyType (PropertyImage.useDefault propertyType s0).
Proof.
  revert s. induction m as [|m IH]; intros s Hm.
  - destruct (PropertyImage.willRetry propertyType s) eqn:E.
    + apply willRetry_step in E as [Hlt _]. lia.
    + exists s. split; [exact E | now apply fails_without_retry].
  - destruct (PropertyImage.willRetry propertyType s) eqn:E.
    + apply willRetry_step in E as [Hlt Hrc].
      rewrite Nat.add_succ_l, Nat.iter_succ_r. apply IH. rewrite Hrc. lia.
    + exists s. split; [exact E |].
      replace (S m + S (S n))%nat with (S (S (S m + n))) by lia.
      now apply fails_without_retry.
Qed.

(** Five failures in a row, from any state, end the chain: the
    "Property Image" placeholder is shown over the default image, nothing
    is loading, and a further failure changes nothing. *)
Theorem image_chain_ends (propertyType : string) (s : PropertyImage.State) :
  let s5 := Nat.iter 5 (PropertyImage.handleImageError propertyType) s in
  PropertyImage.handleImageError propertyType s5 = s5
  /\ PropertyImage.placeholderShown s5 = true
  /\ PropertyImage.isLoading s5 = false
  /\ PropertyImage.isDefaultImage s5 = true.
Proof.
  intros s5. destruct (fails_settle propertyType 3 0 s) as [s0 [Hno Hs0]]; [lia |].
  change (Nat.iter (3 + 2) (PropertyImage.handleImageError propertyType) s) with s5 in Hs0.
  rewrite Hs0. clear s5 Hs0.
  destruct (useDefault_twice propertyType s0) as (Hfix & Hshown & Hload).
  split; [| split; [exact Hshown | split; [exact Hload |]]].
  - rewrite handleImageError_cases, !willRetry_useDefault, Hno. exact Hfix.
  - destruct s0 as [src ld he rc isd]. unfold PropertyImage.useDefault.
    now destruct isd.
Qed.

(** ** How many listings the comparison gets *)

(** When the identifiers of the filtered listings are distinct, the
    comparison is given at most as many listings as are selected, hence at
    most 4 in every state the grid can reach, and exactly the selected
    ones that the filtered sequence holds: the cut after 4 removes
    nothing. *)
Theorem compare_at_most_selected (properties : list Property.t) (s : GridState) :
  reachable properties s ->
  NoDup (map Property.id (filteredProperties s)) ->
  (length (compareProperties s) <= size (selectedIds s))%nat
  /\ compareProperties s
     = List.filter (fun p => bool_decide (Property.id p ∈ selectedIds s))
         (filteredProperties s).
Proof.
  intros Hreach Hnd.
  set (chosen := List.filter (fun p => bool_decide (Property.id p ∈ selectedIds s))
                   (filteredProperties s)).
  assert (Hlen : (length chosen <= size (selectedIds s))%nat).
  { assert (Hnd' : NoDup (map Property.id chosen))
      by (eapply sublist_NoDup; [exact Hnd | apply map_sublist, filter_sublist]).
    rewrite <- (length_map Property.id chosen).
    rewrite <- (size_list_to_set (C:=gset string) _ Hnd').
    apply subseteq_size. intros i Hi.
    apply elem_of_list_to_set, list_elem_of_In, in_map_iff in Hi.
    destruct Hi as [p [<- Hp]]. apply filter_In in Hp as [_ Hp].
    now apply bool_decide_eq_true in Hp. }
  assert (Hfour : (size (selectedIds s) <= 4)%nat)
    by (eapply reachable_selection_size; exact Hreach).
  assert (Hcut : compareProperties s = chosen)
    by (unfold compareProperties; apply take_ge; fold chosen; lia).
  split; [rewrite Hcut; exact Hlen | exact Hcut].
Qed.

Lemma compare_at_most_selected_witness :
  (length (compareProperties (setFilteredProperties officeOnly bothSelected))
   <= size (selectedIds (setFilteredProperties officeOnly bothSelected)))%nat
  /\ compareOffered (setFilteredProperties officeOnly bothSelected) = true
  /\ length (compareProperties (setFilteredProperties officeOnly bothSelected)) = 1%nat.
Proof.
  split; [| split; vm_compute; reflexivity].
  apply (compare_at_most_selected [listingA; listingB]).
  - unfold bothSelected.
    change (setFilteredProperties officeOnly ?x) with (step x (FilteredChanged officeOnly)).
    constructor. apply reachable_run. constructor.
  - assert (Hoffice : officeOnly = [listingA]) by (vm_compute; reflexivity).
    cbn [setFilteredProperties filteredEffect filteredProperties]. rewrite Hoffice.
    repeat constructor; set_solver.
Defined.

(** ** Before the ranges are initialised *)

(** Under the criteria the panel starts with, whose ranges are [0, 0], a
    listing passes only if its total price and its area are both 0: for a
    catalogue of listings with a positive area the first result handed to
    the grid is empty; and for an empty catalogue the range effect leaves
    these criteria as they are. *)
Theorem initial_criteria `{Collator} (properties : list Property.t) (term : string) :
  (forall p, In p (filterProperties properties term initialFilters) ->
             (totalPrice p == 0)%Q /\ (Property.total_sqft p == 0)%Q)
  /\ ((forall p, In p properties -> (0 < Property.total_sqft p)%Q) ->
      filterProperties properties term initialFilters = [])
  /\ initRanges [] initialFilters = initialFilters.
Proof.
  assert (Hzero : forall p, In p (filterProperties properties term initialFilters) ->
                    In p properties
                    /\ (totalPrice p == 0)%Q /\ (Property.total_sqft p == 0)%Q).
  { intros p Hin. apply filterProperties_In in Hin.
    destruct Hin as [Hin (_ & _ & [Hp1 Hp2] & [Hs1 Hs2] & _)].
    cbn in Hp1, Hp2, Hs1, Hs2. split; [exact Hin |]. split; lra. }
  split; [| split; [| reflexivity]].
  - intros p Hin. now apply Hzero.
  - intros Hpos. apply no_member_nil. intros p Hin.
    destruct (Hzero p Hin) as (Hp & _ & Hz). specialize (Hpos p Hp). lra.
Qed.

Lemma initial_criteria_witness :
  @filterProperties CodeUnitCollator [listingA; listingB] "" initialFilters = [].
Proof.
  apply (@initial_criteria CodeUnitCollator [listingA; listingB] "").
  intros p [<- | [<- | []]]; reflexivity.
Defined.

(** ** C6: the timer and a filter change *)

(** C6 fails on the code.  Over 12 listings a load is triggered, the
    filtered sequence is replaced by 30 listings during the delay, and the
    timer fires: the count is 16, below the length 30 of the filtered
    sequence, yet [hasMore] is down, because the callback compares with the
    length its closure captured, 12. *)
Theorem load_more_stale_length :
  reachable (catalogue 12) filteredWhileLoading
  /\ isLoadingMore (run (mounted 12) [LoadMore]) = true
  /\ visibleCount filteredWhileLoading = 16%nat
  /\ length (filteredProperties filteredWhileLoading) = 30%nat
  /\ (visibleCount filteredWhileLoading
      <? length (filteredProperties filteredWhileLoading))%nat = true
  /\ hasMore filteredWhileLoading = false
  /\ isLoadingMore filteredWhileLoading = false
  /\ loadMoreProperties filteredWhileLoading = filteredWhileLoading.
Proof.
  split.
  - unfold filteredWhileLoading, mounted. repeat apply reachable_run. constructor.
  - repeat split.
Qed.

(** ** C9: malformed data at the entry of the program *)

(** C9.  For every value imported as the catalogue that is not an array,
    an absent one included, [App] shows "Error Loading Data" with the
    message of its validation and does not render the grid; the grid is
    rendered only for a non-empty array, inside the error boundary, and its
    render completes without an exception; an empty array gives "No
    Properties Found". *)
Theorem malformed_input_detected (propertiesData : JsValue) :
  (Array_isArray propertiesData = false ->
   App.loaded propertiesData = App.ErrorLoadingData "Invalid data format")
  /\ (forall grid,
        App.loaded propertiesData = App.InErrorBoundary grid ->
        exists l, propertiesData = JsArray l /\ l <> []
                  /\ grid = Normal (Listing (JsArray (firstn 8 l))))
  /\ (propertiesData = JsArray [] -> App.loaded propertiesData = App.NoPropertiesFound)
  /\ App.render App.initial = App.LoadingProperties.
Proof.
  unfold App.loaded, App.loadProperties.
  split; [| split; [| split; [| reflexivity]]].
  - intros Hmal. rewrite Hmal. cbn [negb]. now rewrite orb_true_r.
  - intros grid. destruct propertiesData as [| | n | str | | l]; cbn [Array_isArray negb];
      try (rewrite orb_true_r; discriminate).
    cbn [truthy negb orb]. unfold App.render. cbn [App.loading App.error App.shown App.properties].
    destruct l as [|p l]; [discriminate |]. cbn [length Nat.eqb].
    intros Hgrid. injection Hgrid as <-. exists (p :: l). repeat split. discriminate.
  - intros ->. reflexivity.
Qed.

Lemma malformed_input_detected_witness :
  App.loaded JsUndefined = App.ErrorLoadingData "Invalid data format"
  /\ App.loaded (JsString "[]") = App.ErrorLoadingData "Invalid data format"
  /\ App.loaded (JsArray []) = App.NoPropertiesFound.
Proof.
  split; [| split].
  - apply (malformed_input_detected JsUndefined). reflexivity.
  - apply (malformed_input_detected (JsString "[]")). reflexivity.
  - apply (malformed_input_detected (JsArray [])). reflexivity.
Defined.
